(** * WarpSimulation: the benchmark report scripts

    A shallow embedding of [statisticaltest.py] and [barchart.py].

    Both scripts load one table of measurements (columns [k], [bytes],
    [time]), aggregate it with pandas and either print a report or draw a
    bar chart.  The embedding follows the scripts line by line over a small
    model of the pandas operations they call.

    Numbers.  The [time] column and everything derived from it is float64
    in the scripts.  Here a float is an exact real number or one of the
    three IEEE-754 special values; rounding, overflow and the sign of zero
    are left out, the propagation of infinities and NaN is kept.

    Output.  A run is the list of the items printed, in order, and the way
    the run ended; the line breaks and the number formats of the printed
    text are left out.

    Part 1 holds the definitions: the idealised floats, the pandas
    operations, the two scripts, the vocabulary of the specification and
    a few sample inputs.  Part 2 holds the theorems on the report and the
    chart, Part 3 further properties of the two scripts, Part 4 the
    t-test and the script over its two mean routines. *)

From Stdlib Require Import Reals Lra String Bool ZArith List Permutation Sorted Lia.
From Stdlib Require Import DecimalString DecimalZ DecimalPos DecimalFacts.
Import ListNotations.

Open Scope Z_scope.

(** ** Part 1. Definitions *)

(** *** float64, idealised *)

Inductive fval : Type :=
| Fin (r : R)
| PInf
| NInf
| NaN.

Inductive sign : Type := Neg | Zero | Pos.

Definition sign_of (r : R) : sign :=
  match total_order_T r 0 with
  | inleft (left _) => Neg
  | inleft (right _) => Zero
  | inright _ => Pos
  end.

Definition sign_opp (s : sign) : sign :=
  match s with Neg => Pos | Zero => Zero | Pos => Neg end.

(** An infinity of the given sign; the sign of zero stands for the
    invalid operations ([inf * 0], [0 / 0]), which give NaN. *)
Definition inf_of_sign (s : sign) : fval :=
  match s with Neg => NInf | Zero => NaN | Pos => PInf end.

Definition fopp (x : fval) : fval :=
  match x with
  | Fin r => Fin (- r)
  | PInf => NInf
  | NInf => PInf
  | NaN => NaN
  end.

Definition fadd (x y : fval) : fval :=
  match x, y with
  | NaN, _ | _, NaN => NaN
  | Fin a, Fin b => Fin (a + b)
  | PInf, NInf | NInf, PInf => NaN
  | PInf, _ | _, PInf => PInf
  | NInf, _ | _, NInf => NInf
  end.

Definition fsub (x y : fval) : fval := fadd x (fopp y).

Definition fmul (x y : fval) : fval :=
  match x, y with
  | NaN, _ | _, NaN => NaN
  | Fin a, Fin b => Fin (a * b)
  | PInf, Fin b | Fin b, PInf => inf_of_sign (sign_of b)
  | NInf, Fin b | Fin b, NInf => inf_of_sign (sign_opp (sign_of b))
  | PInf, PInf | NInf, NInf => PInf
  | PInf, NInf | NInf, PInf => NInf
  end.

(** Division never raises: numpy and pandas return an infinity or NaN for
    a zero divisor (numpy scalars add a warning, no exception). *)
Definition fdiv (x y : fval) : fval :=
  match x, y with
  | NaN, _ | _, NaN => NaN
  | Fin a, Fin b =>
      match sign_of b with
      | Zero => inf_of_sign (sign_of a)
      | _ => Fin (a / b)
      end
  | Fin _, (PInf | NInf) => Fin 0
  | PInf, Fin b =>
      match sign_of b with Neg => NInf | _ => PInf end
  | NInf, Fin b =>
      match sign_of b with Neg => PInf | _ => NInf end
  | (PInf | NInf), (PInf | NInf) => NaN
  end.

Definition fsqrt (x : fval) : fval :=
  match x with
  | Fin r => match sign_of r with Neg => NaN | _ => Fin (sqrt r) end
  | PInf => PInf
  | NInf | NaN => NaN
  end.

Definition of_nat (n : nat) : fval := Fin (INR n).

Definition is_nan (x : fval) : bool :=
  match x with NaN => true | _ => false end.

(** *** pandas, as far as the scripts use it *)

Section Containers.
Context {A V : Type}.
Variable eqb : A -> A -> bool.
Variable leb : A -> A -> bool.

(** [Series.unique()]: the distinct values, in order of first appearance. *)
Fixpoint unique (l : list A) : list A :=
  match l with
  | [] => []
  | x :: xs => x :: filter (fun y => negb (eqb x y)) (unique xs)
  end.

Fixpoint insert (x : A) (l : list A) : list A :=
  match l with
  | [] => [x]
  | y :: ys => if leb x y then x :: l else y :: insert x ys
  end.

(** [sorted(...)], and the key order of [groupby] and [pivot]. *)
Definition sorted (l : list A) : list A := fold_right insert [] l.

Fixpoint has_dup (l : list A) : bool :=
  match l with
  | [] => false
  | x :: xs => existsb (eqb x) xs || has_dup xs
  end.

(** Label lookup in a Series: the first entry under the label. *)
Fixpoint lookup (i : A) (s : list (A * V)) : option V :=
  match s with
  | [] => None
  | (j, v) :: s' => if eqb i j then Some v else lookup i s'
  end.

Fixpoint index_of (x : A) (l : list A) : option nat :=
  match l with
  | [] => None
  | y :: ys => if eqb x y then Some O else option_map S (index_of x ys)
  end.
End Containers.

(** A Series: labels paired with values, in index order. *)
Definition series (I V : Type) : Type := list (I * V).

Definition values {I V : Type} (s : series I V) : list V := map snd s.

(** Element-wise operations.  Every pair of operands in the scripts
    carries the same index, so pandas combines them position by position. *)
Fixpoint zip_with {I V W X : Type} (f : V -> W -> X)
    (s1 : series I V) (s2 : series I W) : series I X :=
  match s1, s2 with
  | (i, x) :: s1', (_, y) :: s2' => (i, f x y) :: zip_with f s1' s2'
  | _, _ => []
  end.

Definition smap {I V W : Type} (f : V -> W) (s : series I V) : series I W :=
  map (fun e => (fst e, f (snd e))) s.

(** Reductions of a float column; pandas skips NaN in all of them. *)
Definition dropna (xs : list fval) : list fval :=
  filter (fun x => negb (is_nan x)) xs.

Definition fsum (xs : list fval) : fval := fold_left fadd xs (Fin 0).

Definition count (xs : list fval) : nat := length (dropna xs).

Definition nanmean (xs : list fval) : fval :=
  let v := dropna xs in
  match length v with
  | O => NaN
  | n => fdiv (fsum v) (of_nat n)
  end.

(** Variance with [ddof] delta degrees of freedom: NaN when no more than
    [ddof] values are left, else the sum of squared deviations from the
    mean over [count - ddof]. *)
Definition nanvar (ddof : nat) (xs : list fval) : fval :=
  let v := dropna xs in
  let n := length v in
  if (n <=? ddof)%nat then NaN
  else
    let avg := fdiv (fsum v) (of_nat n) in
    fdiv (fsum (map (fun x => fmul (fsub avg x) (fsub avg x)) v))
         (of_nat (n - ddof)).

Definition nanstd (ddof : nat) (xs : list fval) : fval :=
  fsqrt (nanvar ddof xs).

(** *** The loaded table *)

Record record : Type := mkRecord { k : Z; bytes : Z; time : R }.

Definition dataframe : Type := list record.

Definition key : Type := (Z * Z)%type.

Definition key_eqb (a b : key) : bool :=
  (fst a =? fst b) && (snd a =? snd b).

(** Group keys are ordered by the first column, then by the second. *)
Definition key_leb (a b : key) : bool :=
  (fst a <? fst b) || ((fst a =? fst b) && (snd a <=? snd b)).

(** The [time] values of the rows whose key columns equal [g]. *)
Definition group_times (by_ : record -> key) (g : key) (df : dataframe) : list fval :=
  map (fun r => Fin (time r)) (filter (fun r => key_eqb (by_ r) g) df).

(** [df.groupby([c1, c2])['time'].agg()]: one entry per key that occurs,
    keys sorted. *)
Definition groupby {V : Type} (by_ : record -> key) (agg : list fval -> V)
    (df : dataframe) : series key V :=
  map (fun g => (g, agg (group_times by_ g df)))
      (sorted key_leb (unique key_eqb (map by_ df))).

(** [df[(df['k'] == kv) & (df['bytes'] == b)]['time']] *)
Definition select_times (kv b : Z) (df : dataframe) : list fval :=
  map (fun r => Fin (time r))
      (filter (fun r => (k r =? kv) && (bytes r =? b)) df).

(** *** Errors and output *)

Inductive error : Type :=
| DuplicateEntries              (* ValueError of [pivot] *)
| LengthMismatch (expected given : nat) (* ValueError of [columns = ...] *)
| KeyError (b kv : Z)           (* missing label in a Series *)
| ColumnError (name : string).  (* KeyError of a missing column *)

Inductive result (A : Type) : Type :=
| Ok (a : A)
| Raise (e : error).
Arguments Ok {A} a.
Arguments Raise {A} e.

Definition rbind {A B : Type} (r : result A) (f : A -> result B) : result B :=
  match r with
  | Ok a => f a
  | Raise e => Raise e
  end.

Fixpoint rmap_list {A B : Type} (f : A -> result B) (l : list A) : result (list B) :=
  match l with
  | [] => Ok []
  | x :: xs =>
      rbind (f x) (fun y => rbind (rmap_list f xs) (fun ys => Ok (y :: ys)))
  end.

(** A table indexed by [bytes]; [L] is the type of the column labels. *)
Record frame (L : Type) : Type := mkFrame {
  columns : list L;
  rows : list (Z * list fval)
}.
Arguments mkFrame {L} columns rows.
Arguments columns {L} f.
Arguments rows {L} f.

(** [mean_times.pivot(index='bytes', columns='k', values='time')] on the
    entries [((k, bytes), time)] of [mean_times].  A cell without an entry
    is NaN; two entries for one cell are an error. *)
Definition pivot (mean_times : series key fval) : result (frame Z) :=
  if has_dup key_eqb (map fst mean_times) then Raise DuplicateEntries
  else
    let idx := sorted Z.leb (unique Z.eqb (map (fun e => snd (fst e)) mean_times)) in
    let cols := sorted Z.leb (unique Z.eqb (map (fun e => fst (fst e)) mean_times)) in
    Ok (mkFrame cols
          (map (fun b =>
                  (b, map (fun c =>
                             match lookup key_eqb (c, b) mean_times with
                             | Some v => v
                             | None => NaN
                             end) cols)) idx)).

(** [frame.columns = names] *)
Definition set_columns {L : Type} (names : list string) (f : frame L) : result (frame string) :=
  if (length names =? length (columns f))%nat then Ok (mkFrame names (rows f))
  else Raise (LengthMismatch (length (columns f)) (length names)).

(** [frame[name]] *)
Definition getitem (name : string) (f : frame string) : result (series Z fval) :=
  match index_of String.eqb name (columns f) with
  | Some j => Ok (map (fun row => (fst row, nth j (snd row) NaN)) (rows f))
  | None => Raise (ColumnError name)
  end.

Fixpoint replace_nth {A : Type} (j : nat) (x : A) (l : list A) : list A :=
  match l, j with
  | [], _ => []
  | _ :: l', O => x :: l'
  | y :: l', S j' => y :: replace_nth j' x l'
  end.

Fixpoint attach (put : fval -> list fval -> list fval)
    (rs : list (Z * list fval)) (s : series Z fval) : list (Z * list fval) :=
  match rs, s with
  | (b, vs) :: rs', (_, v) :: s' => (b, put v vs) :: attach put rs' s'
  | _, _ => []
  end.

(** [frame[name] = s], for a Series [s] on the frame's own index. *)
Definition setitem (name : string) (s : series Z fval) (f : frame string) : frame string :=
  match index_of String.eqb name (columns f) with
  | Some j => mkFrame (columns f) (attach (fun v vs => replace_nth j v vs) (rows f) s)
  | None => mkFrame (columns f ++ [name]) (attach (fun v vs => vs ++ [v]) (rows f) s)
  end.

(** [frame[[n1, n2, ...]]] *)
Definition select (names : list string) (f : frame string) : result (frame string) :=
  rbind (rmap_list (fun n => match index_of String.eqb n (columns f) with
                             | Some j => Ok j
                             | None => Raise (ColumnError n)
                             end) names)
        (fun js => Ok (mkFrame names
                         (map (fun row => (fst row, map (fun j => nth j (snd row) NaN) js))
                              (rows f)))).

(** The value of a table at row [b], column [name]. *)
Definition cell (f : frame string) (b : Z) (name : string) : option fval :=
  match lookup Z.eqb b (rows f), index_of String.eqb name (columns f) with
  | Some vs, Some j => nth_error vs j
  | _, _ => None
  end.

(** The lines printed for one message size by the loop of
    [statisticaltest.py]. *)
Record size_report : Type := mkSizeReport {
  msg_size : Z;
  k1_mean : fval;
  k1_n : nat;
  k8_mean : fval;
  k8_n : nat;
  mean_improvement : fval;
  t_stat : fval;
  p_val : fval
}.

Inductive out : Type :=
| Text (s : string)
| Table (f : frame string)
| CohensD (d : fval)
| SizeReport (r : size_report).

(** A script run: what was printed, and how the run ended. *)
Definition M (A : Type) : Type := (list out * result A)%type.

Definition ret {A : Type} (a : A) : M A := ([], Ok a).

Definition bind {A B : Type} (m : M A) (f : A -> M B) : M B :=
  match m with
  | (o, Ok a) => let (o', r) := f a in (o ++ o', r)
  | (o, Raise e) => (o, Raise e)
  end.

Definition print (x : out) : M unit := ([x], Ok tt).

Definition lift {A : Type} (r : result A) : M A := ([], r).

Fixpoint for_each {A : Type} (l : list A) (body : A -> M unit) : M unit :=
  match l with
  | [] => ret tt
  | x :: xs => bind (body x) (fun _ => for_each xs body)
  end.

Definition output {A : Type} (m : M A) : list out := fst m.
Definition status {A : Type} (m : M A) : result A := snd m.

Declare Scope run_scope.
Delimit Scope run_scope with run.
Notation "x <- m ;; f" := (bind m (fun x => f))
  (at level 61, m at next level, right associativity) : run_scope.
Notation "m ;; f" := (bind m (fun _ => f))
  (at level 61, right associativity) : run_scope.

(** *** statisticaltest.py *)

(** [df.groupby(['k', 'bytes'])['time'].mean().reset_index()] *)
Definition mean_times (df : dataframe) : series key fval :=
  groupby (fun r => (k r, bytes r)) nanmean df.

Definition rule : string :=
  "============================================================".

Section StatisticalTest.
(** [scipy.stats.ttest_ind] with its default arguments; the library is
    not part of the repository, so the test is a parameter. *)
Variable ttest_ind : list fval -> list fval -> fval * fval.

Definition size_test (df : dataframe) (b : Z) : size_report :=
  let k1_data := select_times 1 b df in
  let k8_data := select_times 8 b df in
  let tp := ttest_ind k1_data k8_data in
  let improvement :=
    fmul (fdiv (fsub (nanmean k1_data) (nanmean k8_data)) (nanmean k1_data))
         (Fin 100) in
  mkSizeReport b (nanmean k1_data) (length k1_data)
               (nanmean k8_data) (length k8_data)
               improvement (fst tp) (snd tp).

Definition statisticaltest (df : dataframe) : M unit :=
  (table <- lift (pivot (mean_times df)) ;;
   table <- lift (set_columns ["k1"; "k8"]%string table) ;;
   print (Text "Mean Transfer Times:") ;;
   print (Table table) ;;
   print (Text rule) ;;
   (* percentage improvement *)
   k1 <- lift (getitem "k1" table) ;;
   k8 <- lift (getitem "k8" table) ;;
   let table :=
     setitem "improvement_%"
       (smap (fun x => fmul x (Fin 100))
             (zip_with fdiv (zip_with fsub k1 k8) k1)) table in
   k1 <- lift (getitem "k1" table) ;;
   k8 <- lift (getitem "k8" table) ;;
   let table := setitem "time_saved_s" (zip_with fsub k1 k8) table in
   print (Text "Performance Improvements:") ;;
   shown <- lift (select ["improvement_%"; "time_saved_s"]%string table) ;;
   print (Table shown) ;;
   print (Text rule) ;;
   (* effect size; on a Series np.mean and np.std are Series.mean and
      Series.std, which skip NaN *)
   k1 <- lift (getitem "k1" table) ;;
   k8 <- lift (getitem "k8" table) ;;
   let differences := zip_with fsub k1 k8 in
   let cohens_d :=
     fdiv (nanmean (values differences)) (nanstd 1 (values differences)) in
   print (CohensD cohens_d) ;;
   (* one two-sample test per message size *)
   print (Text "Per-Message-Size Statistical Tests:") ;;
   for_each (unique Z.eqb (map bytes df))
            (fun msg_size => print (SizeReport (size_test df msg_size))))%run.
End StatisticalTest.

(** Reading a report back. *)
Fixpoint tables (o : list out) : list (frame string) :=
  match o with
  | [] => []
  | Table f :: o' => f :: tables o'
  | _ :: o' => tables o'
  end.

Fixpoint printed_cohens_d (o : list out) : option fval :=
  match o with
  | [] => None
  | CohensD d :: _ => Some d
  | _ :: o' => printed_cohens_d o'
  end.

Fixpoint size_reports (o : list out) : list size_report :=
  match o with
  | [] => []
  | SizeReport r :: o' => r :: size_reports o'
  | _ :: o' => size_reports o'
  end.

Definition report_for (b : Z) (o : list out) : option size_report :=
  find (fun r => msg_size r =? b) (size_reports o).

(** *** barchart.py *)

Record aggregates : Type := mkAggregates {
  means : series key fval;
  stds : series key fval;
  ns : series key nat;
  cis : series key fval
}.

(** Lines 8 to 12: the grouped mean, standard deviation (pandas' default
    [ddof=1]), count and 95% half-width. *)
Definition aggregate (df : dataframe) : aggregates :=
  let by_ := fun r => (bytes r, k r) in
  let means := groupby by_ nanmean df in
  let stds := groupby by_ (nanstd 1) df in
  let ns := groupby by_ count df in
  let cis :=
    zip_with fdiv (smap (fmul (Fin 1.96)) stds)
             (smap (fun n => fsqrt (of_nat n)) ns) in
  mkAggregates means stds ns cis.

(** [s[(b, kv)]] on a Series indexed by [(bytes, k)]. *)
Definition at_key (s : series key fval) (b kv : Z) : result fval :=
  match lookup key_eqb (b, kv) s with
  | Some v => Ok v
  | None => Raise (KeyError b kv)
  end.

(** One call of [ax.bar]: the position [i] of the group of bars, the k
    value of its label, the heights and the error bars. *)
Record bar : Type := mkBar {
  bar_i : nat;
  bar_k : Z;
  vals : list fval;
  errs : list fval
}.

(** The body of the loop over [enumerate([1, 8])]. *)
Definition draw_bars (agg : aggregates) (byte_sizes : list Z)
    (i : nat) (k_val : Z) : result bar :=
  rbind (rmap_list (fun b => at_key (means agg) b k_val) byte_sizes) (fun vals =>
  rbind (rmap_list (fun b => at_key (cis agg) b k_val) byte_sizes) (fun errs =>
  Ok (mkBar i k_val vals errs))).

Definition barchart (df : dataframe) : result (list bar) :=
  let agg := aggregate df in
  let byte_sizes := sorted Z.leb (unique Z.eqb (map bytes df)) in
  rmap_list (fun ik => draw_bars agg byte_sizes (fst ik) (snd ik))
            [(0%nat, 1); (1%nat, 8)].

(** *** The vocabulary of the specification *)

(** The distinct values of the two key columns, in increasing order. *)
Definition k_values (df : dataframe) : list Z :=
  sorted Z.leb (unique Z.eqb (map k df)).

Definition byte_values (df : dataframe) : list Z :=
  sorted Z.leb (unique Z.eqb (map bytes df)).

(** The raw samples of one [(k, bytes)] pair. *)
Definition raw_times (kv b : Z) (df : dataframe) : list R :=
  map time (filter (fun r => (k r =? kv) && (bytes r =? b)) df).

Definition has_samples (kv b : Z) (df : dataframe) : bool :=
  existsb (fun r => (k r =? kv) && (bytes r =? b)) df.

Definition Rsum (xs : list R) : R := fold_right Rplus 0%R xs.

(** Arithmetic mean; undefined (NaN) for no values. *)
Definition arith_mean (xs : list R) : fval :=
  match xs with
  | [] => NaN
  | _ => Fin (Rsum xs / INR (length xs))
  end.

(** Bessel-corrected sample standard deviation (divisor n - 1);
    undefined (NaN) for fewer than two values. *)
Definition sample_std (xs : list R) : fval :=
  match xs with
  | [] | [_] => NaN
  | _ =>
      let m := (Rsum xs / INR (length xs))%R in
      Fin (sqrt (Rsum (map (fun x => ((x - m) * (x - m))%R) xs)
                 / INR (length xs - 1)))
  end.

(** The per-size differences k1 mean - k8 mean, over the bytes values
    with samples in both groups. *)
Definition paired_differences (df : dataframe) : list R :=
  map (fun b => (Rsum (raw_times 1 b df) / INR (length (raw_times 1 b df))
                 - Rsum (raw_times 8 b df) / INR (length (raw_times 8 b df)))%R)
      (filter (fun b => has_samples 1 b df && has_samples 8 b df) (byte_values df)).

(** Cohen's d as the specification words it. *)
Definition spec_cohens_d (df : dataframe) : fval :=
  fdiv (arith_mean (paired_differences df)) (sample_std (paired_differences df)).

(** (k1 - k8) / k1 * 100 *)
Definition improvement_pct (k1m k8m : fval) : fval :=
  fmul (fdiv (fsub k1m k8m) k1m) (Fin 100).

Definition finite (x : fval) : Prop := exists r, x = Fin r.

(** 1.96 times the standard error of the mean, s / sqrt(n). *)
Definition half_width (xs : list R) : fval :=
  fmul (Fin 1.96) (fdiv (sample_std xs) (fsqrt (of_nat (length xs)))).

(** The report of a run that gets past the renaming of the columns, in
    closed form: [ka] and [kb] are the k values of the two pivot columns. *)
Definition group_mean (df : dataframe) (kv b : Z) : fval :=
  arith_mean (raw_times kv b df).

Definition mean_table (df : dataframe) (ka kb : Z) : frame string :=
  mkFrame ["k1"; "k8"]%string
    (map (fun b => (b, [group_mean df ka b; group_mean df kb b]))
         (byte_values df)).

Definition improvement_table (df : dataframe) (ka kb : Z) : frame string :=
  mkFrame ["improvement_%"; "time_saved_s"]%string
    (map (fun b =>
            (b, [improvement_pct (group_mean df ka b) (group_mean df kb b);
                 fsub (group_mean df ka b) (group_mean df kb b)]))
         (byte_values df)).

Definition column_differences (df : dataframe) (ka kb : Z) : list fval :=
  map (fun b => fsub (group_mean df ka b) (group_mean df kb b)) (byte_values df).

Definition report (ttest_ind : list fval -> list fval -> fval * fval)
    (df : dataframe) (ka kb : Z) : list out :=
  [ Text "Mean Transfer Times:";
    Table (mean_table df ka kb);
    Text rule;
    Text "Performance Improvements:";
    Table (improvement_table df ka kb);
    Text rule;
    CohensD (fdiv (nanmean (column_differences df ka kb))
                  (nanstd 1 (column_differences df ka kb)));
    Text "Per-Message-Size Statistical Tests:" ]
  ++ map (fun b => SizeReport (size_test ttest_ind df b))
         (unique Z.eqb (map bytes df)).

(** *** Sample inputs *)

(** A stand-in for the t-test where its result does not matter. *)
Definition ttest_none (x y : list fval) : fval * fval := (NaN, NaN).

(** One message size measured once at k = 1 and once at k = 8. *)
Definition df_pair : dataframe :=
  [mkRecord 1 64 2; mkRecord 8 64 1].

(** Two message sizes; 128 bytes was measured at k = 1 only, and once. *)
Definition df_gap : dataframe :=
  [mkRecord 1 64 2; mkRecord 1 64 4; mkRecord 8 64 1; mkRecord 1 128 5].

(** The k = 1 transfers took no time at all. *)
Definition df_zero : dataframe :=
  [mkRecord 1 64 0; mkRecord 8 64 1].

(** The scenario of the specification: 64 bytes, three samples per level. *)
Definition df_scenario : dataframe :=
  [mkRecord 1 64 1.0; mkRecord 1 64 1.2; mkRecord 1 64 0.8;
   mkRecord 8 64 0.5; mkRecord 8 64 0.6; mkRecord 8 64 0.4].

(** Measurements at k = 1 only. *)
Definition df_k1_only : dataframe :=
  [mkRecord 1 64 1].

(** Measurements at k = 2 and k = 4, two message sizes. *)
Definition df_k2_k4 : dataframe :=
  [mkRecord 2 64 1; mkRecord 4 64 0; mkRecord 2 128 3; mkRecord 4 128 0].

(** Two message sizes, each a second slower at k = 1 than at k = 8. *)
Definition df_steady : dataframe :=
  [mkRecord 1 64 2; mkRecord 8 64 1; mkRecord 1 128 5; mkRecord 8 128 4].


(** Measurements at k = 1 and k = 4. *)
Definition df_k1_k4 : dataframe :=
  [mkRecord 1 64 2; mkRecord 4 64 1].

(** *** barchart.py: the layout of the chart *)

(** [width = 0.35] *)
Definition width : R := 0.35.

(** [np.arange(n)] *)
Definition arange (n : nat) : list R := map INR (seq 0 n).

(** [str(b)] of an integer: its decimal digits, with a minus sign for a
    negative one. *)
Definition str (b : Z) : string := NilZero.string_of_int (Z.to_int b).

(** [int(s)], the way back from [str]. *)
Definition parse_int (s : string) : option Z :=
  option_map Z.of_int (NilZero.int_of_string s).

(** What the script puts on the axes: for each call of [ax.bar] the
    centres [x + (i - 0.5) * width] of its bars (matplotlib centres a bar
    on its position) with the bar data, then the ticks and their labels.
    The axis titles and the legend are constant text and left out. *)
Record axes : Type := mkAxes {
  drawn : list (list R * bar);
  xticks : list R;
  xticklabels : list string
}.

Definition chart (df : dataframe) : result axes :=
  let byte_sizes := sorted Z.leb (unique Z.eqb (map bytes df)) in
  let x := arange (length byte_sizes) in
  rbind (barchart df) (fun bars =>
    Ok (mkAxes
          (map (fun br =>
                  (map (fun xj => (xj + (INR (bar_i br) - 0.5) * width)%R) x, br))
               bars)
          x
          (map str byte_sizes))).

(** *** Further vocabulary *)

(** The same measurements in another unit of time: every [time] times [c]. *)
Definition scale_times (c : R) (df : dataframe) : dataframe :=
  map (fun r => mkRecord (k r) (bytes r) (c * time r)) df.

(** The rows of one message size. *)
Definition rows_of_size (b : Z) (df : dataframe) : dataframe :=
  filter (fun r => bytes r =? b) df.

(** The bytes values with samples at both levels [ka] and [kb], and the
    difference of the two group means at such a bytes value. *)
Definition paired_sizes (df : dataframe) (ka kb : Z) : list Z :=
  filter (fun b => has_samples ka b df && has_samples kb b df) (byte_values df).

Definition mean_difference (df : dataframe) (ka kb b : Z) : R :=
  (Rsum (raw_times ka b df) / INR (length (raw_times ka b df))
   - Rsum (raw_times kb b df) / INR (length (raw_times kb b df)))%R.

(** A percentage that is not above 100: a number up to 100, minus
    infinity or NaN. *)
Definition at_most_100 (v : fval) : Prop :=
  match v with
  | Fin p => (p <= 100)%R
  | PInf => False
  | NInf | NaN => True
  end.

(** *** statisticaltest.py with its two mean routines kept apart

    Line 8 takes the group means with [groupby(...).mean()]; lines 27, 37,
    40 and 41 take means with [Series.mean()].  These are two routines of
    the library: on the same samples they return the same real number,
    yet as floats they may round differently or return zeros of different
    sign.  Here the script is written over any two such routines;
    [statisticaltest] is the instance where both are [nanmean]. *)

Section MeanRoutines.
Variable grouped_mean : list fval -> fval.
Variable series_mean : list fval -> fval.
Variable ttest_ind : list fval -> list fval -> fval * fval.

Definition size_test_with (df : dataframe) (b : Z) : size_report :=
  let k1_data := select_times 1 b df in
  let k8_data := select_times 8 b df in
  let tp := ttest_ind k1_data k8_data in
  let improvement :=
    fmul (fdiv (fsub (series_mean k1_data) (series_mean k8_data))
               (series_mean k1_data))
         (Fin 100) in
  mkSizeReport b (series_mean k1_data) (length k1_data)
               (series_mean k8_data) (length k8_data)
               improvement (fst tp) (snd tp).

Definition statisticaltest_with (df : dataframe) : M unit :=
  (table <- lift (pivot (groupby (fun r => (k r, bytes r)) grouped_mean df)) ;;
   table <- lift (set_columns ["k1"; "k8"]%string table) ;;
   print (Text "Mean Transfer Times:") ;;
   print (Table table) ;;
   print (Text rule) ;;
   k1 <- lift (getitem "k1" table) ;;
   k8 <- lift (getitem "k8" table) ;;
   let table :=
     setitem "improvement_%"
       (smap (fun x => fmul x (Fin 100))
             (zip_with fdiv (zip_with fsub k1 k8) k1)) table in
   k1 <- lift (getitem "k1" table) ;;
   k8 <- lift (getitem "k8" table) ;;
   let table := setitem "time_saved_s" (zip_with fsub k1 k8) table in
   print (Text "Performance Improvements:") ;;
   shown <- lift (select ["improvement_%"; "time_saved_s"]%string table) ;;
   print (Table shown) ;;
   print (Text rule) ;;
   k1 <- lift (getitem "k1" table) ;;
   k8 <- lift (getitem "k8" table) ;;
   let differences := zip_with fsub k1 k8 in
   let cohens_d :=
     fdiv (series_mean (values differences)) (nanstd 1 (values differences)) in
   print (CohensD cohens_d) ;;
   print (Text "Per-Message-Size Statistical Tests:") ;;
   for_each (unique Z.eqb (map bytes df))
            (fun msg_size => print (SizeReport (size_test_with df msg_size))))%run.

(** A cell of the pivot: the grouped mean of the samples of the pair, NaN
    where the pair has none. *)
Definition pivot_entry (df : dataframe) (kv b : Z) : fval :=
  if has_samples kv b df then grouped_mean (select_times kv b df) else NaN.

(** The report of a run over the two routines, in closed form. *)
Definition report_with (df : dataframe) (ka kb : Z) : list out :=
  [ Text "Mean Transfer Times:";
    Table (mkFrame ["k1"; "k8"]%string
             (map (fun b => (b, [pivot_entry df ka b; pivot_entry df kb b]))
                  (byte_values df)));
    Text rule;
    Text "Performance Improvements:";
    Table (mkFrame ["improvement_%"; "time_saved_s"]%string
             (map (fun b =>
                     (b, [improvement_pct (pivot_entry df ka b) (pivot_entry df kb b);
                          fsub (pivot_entry df ka b) (pivot_entry df kb b)]))
                  (byte_values df)));
    Text rule;
    CohensD
      (fdiv (series_mean
               (map (fun b => fsub (pivot_entry df ka b) (pivot_entry df kb b))
                    (byte_values df)))
            (nanstd 1
               (map (fun b => fsub (pivot_entry df ka b) (pivot_entry df kb b))
                    (byte_values df))));
    Text "Per-Message-Size Statistical Tests:" ]
  ++ map (fun b => SizeReport (size_test_with df b))
         (unique Z.eqb (map bytes df)).
End MeanRoutines.

(** *** The two-sample t-test *)





(** The textbook quantities on real samples: the sample variance
    (divisor n - 1, undefined below two values) and the pooled-variance
    t statistic
    (m1 - m2) / sqrt (sp2 * (1/n1 + 1/n2)),
    sp2 = ((n1 - 1) * v1 + (n2 - 1) * v2) / (n1 + n2 - 2). *)
Definition sample_var (xs : list R) : fval :=
  match xs with
  | [] | [_] => NaN
  | _ =>
      let m := (Rsum xs / INR (length xs))%R in
      Fin (Rsum (map (fun x => ((x - m) * (x - m))%R) xs) / INR (length xs - 1))
  end.

Definition pooled_t (xs ys : list R) : fval :=
  let n1 := length xs in
  let n2 := length ys in
  let sp2 :=
    fdiv (fadd (fmul (of_nat (n1 - 1)) (sample_var xs))
               (fmul (of_nat (n2 - 1)) (sample_var ys)))
         (Fin (IZR (Z.of_nat n1 + Z.of_nat n2 - 2))) in
  fdiv (fsub (arith_mean xs) (arith_mean ys))
       (fsqrt (fmul sp2 (fadd (fdiv (Fin 1) (of_nat n1))
                              (fdiv (Fin 1) (of_nat n2))))).

(** ** Part 2. Theorems *)

(** *** Arithmetic of the idealised floats *)

Lemma sign_of_pos (r : R) : (0 < r)%R -> sign_of r = Pos.
Proof.
  intros H. unfold sign_of.
  destruct (total_order_T r 0) as [[Hlt | Heq] | Hgt]; try reflexivity; lra.
Qed.

Lemma sign_of_neg (r : R) : (r < 0)%R -> sign_of r = Neg.
Proof.
  intros H. unfold sign_of.
  destruct (total_order_T r 0) as [[Hlt | Heq] | Hgt]; try reflexivity; lra.
Qed.

Lemma sign_of_zero (r : R) : r = 0%R -> sign_of r = Zero.
Proof.
  intros H. unfold sign_of.
  destruct (total_order_T r 0) as [[Hlt | Heq] | Hgt]; try reflexivity; lra.
Qed.

Lemma sign_of_nonneg (r : R) : (0 <= r)%R -> sign_of r <> Neg.
Proof.
  intros H. unfold sign_of.
  destruct (total_order_T r 0) as [[Hlt | Heq] | Hgt]; try discriminate; lra.
Qed.

(** Rewrites every [sign_of r] whose sign linear arithmetic can decide. *)
Ltac decide_signs :=
  repeat match goal with
    | |- context [sign_of ?r] =>
        first [ rewrite (sign_of_pos r) by (simpl; lra)
              | rewrite (sign_of_neg r) by (simpl; lra)
              | rewrite (sign_of_zero r) by (simpl; lra) ]
    end.

Lemma INR_pos (n : nat) : (0 < n)%nat -> (0 < INR n)%R.
Proof. intros H. apply lt_0_INR. exact H. Qed.

Lemma fold_fadd_Fin (xs : list R) (a : R) :
  fold_left fadd (map Fin xs) (Fin a) = Fin (a + Rsum xs).
Proof.
  revert a. induction xs as [| x xs IH]; intros a; simpl.
  - f_equal. lra.
  - rewrite IH. f_equal. lra.
Qed.

Lemma fsum_Fin (xs : list R) : fsum (map Fin xs) = Fin (Rsum xs).
Proof. unfold fsum. rewrite fold_fadd_Fin. f_equal. lra. Qed.

Lemma dropna_Fin (xs : list R) : dropna (map Fin xs) = map Fin xs.
Proof.
  unfold dropna. induction xs as [| x xs IH]; simpl; [reflexivity |].
  now rewrite IH.
Qed.

Lemma count_Fin (xs : list R) : count (map Fin xs) = length xs.
Proof. unfold count. now rewrite dropna_Fin, length_map. Qed.

(** On finite values the NaN-skipping mean of pandas is the arithmetic
    mean. *)
Lemma nanmean_Fin (xs : list R) : nanmean (map Fin xs) = arith_mean xs.
Proof.
  unfold nanmean. rewrite dropna_Fin, length_map, fsum_Fin.
  destruct xs as [| x xs]; [reflexivity |].
  unfold arith_mean. remember (x :: xs) as l eqn:El.
  assert (Hn : (0 < length l)%nat) by (subst l; simpl; lia).
  destruct (length l) as [| n] eqn:En; [lia |].
  unfold of_nat, fdiv.
  rewrite (sign_of_pos _ (INR_pos _ Hn)).
  subst l. reflexivity.
Qed.

Lemma Rsum_sq_nonneg (m : R) (xs : list R) :
  (0 <= Rsum (map (fun x => (x - m) * (x - m)) xs))%R.
Proof.
  induction xs as [| x xs IH]; simpl; [lra |].
  pose proof (Rle_0_sqr (x - m)) as Hs. unfold Rsqr in Hs. lra.
Qed.

Lemma fdiv_Fin_pos (a b : R) : (0 < b)%R -> fdiv (Fin a) (Fin b) = Fin (a / b).
Proof. intros H. unfold fdiv. now rewrite (sign_of_pos b H). Qed.

Lemma sq_dev_Fin (m : R) (xs : list R) :
  map (fun x => fmul (fsub (Fin m) x) (fsub (Fin m) x)) (map Fin xs)
  = map Fin (map (fun x => ((x - m) * (x - m))%R) xs).
Proof.
  induction xs as [| x xs IH]; cbn [map]; [reflexivity |].
  rewrite IH. f_equal. simpl. f_equal. lra.
Qed.

(** On finite values the standard deviation of pandas with [ddof = 1] is
    the Bessel-corrected sample standard deviation. *)
Lemma nanstd_Fin (xs : list R) : nanstd 1 (map Fin xs) = sample_std xs.
Proof.
  unfold nanstd, nanvar. rewrite dropna_Fin, length_map.
  destruct xs as [| x [| y xs]]; [reflexivity | reflexivity |].
  unfold sample_std. remember (x :: y :: xs) as l eqn:El.
  assert (Hn : (2 <= length l)%nat) by (subst l; simpl; lia).
  destruct (Nat.leb_spec (length l) 1) as [Hle | _]; [lia |].
  cbv zeta. rewrite fsum_Fin. unfold of_nat.
  rewrite fdiv_Fin_pos by (apply INR_pos; lia).
  rewrite sq_dev_Fin, fsum_Fin.
  rewrite fdiv_Fin_pos by (apply INR_pos; lia).
  unfold fsqrt.
  match goal with |- context [sign_of ?v] =>
    assert (Hv : (0 <= v)%R)
  end.
  { apply Rmult_le_pos; [apply Rsum_sq_nonneg |].
    apply Rlt_le, Rinv_0_lt_compat, INR_pos. lia. }
  pose proof (sign_of_nonneg _ Hv) as Hs.
  destruct (sign_of _); [contradiction | |]; subst l; reflexivity.
Qed.

(** *** Distinct values, sorting and lookup *)

Section ContainerFacts.
Context {A : Type}.
Variable eqb : A -> A -> bool.
Hypothesis eqb_eq : forall x y, eqb x y = true <-> x = y.

Lemma eqb_refl_true (x : A) : eqb x x = true.
Proof. now apply eqb_eq. Qed.

Lemma unique_In (l : list A) (x : A) : In x (unique eqb l) <-> In x l.
Proof.
  induction l as [| y l IH]; simpl; [tauto |].
  rewrite filter_In, IH, negb_true_iff. split.
  - intros [H | [H _]]; auto.
  - intros [H | H]; [now left |].
    destruct (eqb y x) eqn:E; [left; now apply eqb_eq | right; auto].
Qed.

Lemma unique_NoDup (l : list A) : NoDup (unique eqb l).
Proof.
  induction l as [| y l IH]; simpl; constructor.
  - rewrite filter_In, eqb_refl_true. simpl. intros [_ H]. discriminate.
  - now apply NoDup_filter.
Qed.

Lemma insert_perm (leb : A -> A -> bool) (x : A) (l : list A) :
  Permutation (insert leb x l) (x :: l).
Proof.
  induction l as [| y l IH]; simpl; [reflexivity |].
  destruct (leb x y); [reflexivity |].
  rewrite IH. apply perm_swap.
Qed.

Lemma sorted_perm (leb : A -> A -> bool) (l : list A) :
  Permutation (sorted leb l) l.
Proof.
  induction l as [| y l IH]; simpl; [reflexivity |].
  rewrite insert_perm. now constructor.
Qed.

Lemma sorted_In (leb : A -> A -> bool) (l : list A) (x : A) :
  In x (sorted leb l) <-> In x l.
Proof.
  split; apply Permutation_in;
    [apply sorted_perm | apply Permutation_sym, sorted_perm].
Qed.

(** The sorted distinct values of a column hold exactly its values,
    each once. *)
Lemma distinct_In (leb : A -> A -> bool) (l : list A) (x : A) :
  In x (sorted leb (unique eqb l)) <-> In x l.
Proof. now rewrite sorted_In, unique_In. Qed.

Lemma distinct_NoDup (leb : A -> A -> bool) (l : list A) :
  NoDup (sorted leb (unique eqb l)).
Proof.
  apply (Permutation_NoDup (Permutation_sym (sorted_perm leb _))).
  apply unique_NoDup.
Qed.

Lemma existsb_eqb_In (x : A) (l : list A) :
  existsb (eqb x) l = true <-> In x l.
Proof.
  rewrite existsb_exists. split.
  - intros [y [Hy E]]. apply eqb_eq in E. now subst.
  - intros H. exists x. split; [exact H | apply eqb_refl_true].
Qed.

Lemma has_dup_NoDup (l : list A) : NoDup l -> has_dup eqb l = false.
Proof.
  induction 1 as [| x l Hx _ IH]; simpl; [reflexivity |].
  rewrite IH, orb_false_r.
  destruct (existsb (eqb x) l) eqn:E; [| reflexivity].
  apply existsb_eqb_In in E. contradiction.
Qed.

(** Looking a label up in a Series computed label by label. *)
Lemma lookup_map_In {V : Type} (f : A -> V) (l : list A) (i : A) :
  In i l -> lookup eqb i (map (fun g => (g, f g)) l) = Some (f i).
Proof.
  induction l as [| y l IH]; simpl; [tauto |].
  intros H. destruct (eqb i y) eqn:E.
  - apply eqb_eq in E. now subst.
  - destruct H as [H | H]; [| auto].
    subst. rewrite eqb_refl_true in E. discriminate.
Qed.

Lemma lookup_map_notin {V : Type} (f : A -> V) (l : list A) (i : A) :
  ~ In i l -> lookup eqb i (map (fun g => (g, f g)) l) = None.
Proof.
  induction l as [| y l IH]; simpl; [reflexivity |].
  intros H. destruct (eqb i y) eqn:E.
  - apply eqb_eq in E. subst. tauto.
  - apply IH. tauto.
Qed.
End ContainerFacts.

Lemma key_eqb_eq (a b : key) : key_eqb a b = true <-> a = b.
Proof.
  destruct a as [a1 a2], b as [b1 b2]. unfold key_eqb. simpl.
  rewrite andb_true_iff, !Z.eqb_eq. split.
  - intros [-> ->]. reflexivity.
  - intros H. injection H. auto.
Qed.

Lemma insert_Z_sorted (x : Z) (l : list Z) :
  StronglySorted Z.le l -> StronglySorted Z.le (insert Z.leb x l).
Proof.
  induction 1 as [| y l Hl IH Hy]; simpl.
  - repeat constructor.
  - destruct (Z.leb_spec x y) as [Hxy | Hxy].
    + constructor; [now constructor |].
      constructor; [exact Hxy |].
      eapply Forall_impl; [| exact Hy]. intros z Hz. simpl in Hz. lia.
    + constructor; [exact IH |].
      apply (Permutation_Forall (Permutation_sym (insert_perm Z.leb x l))).
      constructor; [lia | exact Hy].
Qed.

Lemma sorted_Z_sorted (l : list Z) : StronglySorted Z.le (sorted Z.leb l).
Proof.
  induction l as [| x l IH]; simpl; [constructor |].
  now apply insert_Z_sorted.
Qed.

(** An increasing list without repetition is determined by its elements. *)
Lemma increasing_ext (l1 l2 : list Z) :
  StronglySorted Z.le l1 -> NoDup l1 ->
  StronglySorted Z.le l2 -> NoDup l2 ->
  (forall x, In x l1 <-> In x l2) -> l1 = l2.
Proof.
  revert l2. induction l1 as [| a l1 IH]; intros l2 S1 N1 S2 N2 H.
  - destruct l2 as [| b l2]; [reflexivity |].
    exfalso. apply (proj2 (H b)). now left.
  - destruct l2 as [| b l2].
    { exfalso. apply (proj1 (H a)). now left. }
    inversion S1 as [| ? ? S1' F1]; subst.
    inversion S2 as [| ? ? S2' F2]; subst.
    inversion N1 as [| ? ? Na N1']; subst.
    inversion N2 as [| ? ? Nb N2']; subst.
    rewrite Forall_forall in F1, F2.
    assert (Hab : a = b).
    { destruct (proj1 (H a) (or_introl eq_refl)) as [E | Ha]; [now subst |].
      destruct (proj2 (H b) (or_introl eq_refl)) as [E | Hb]; [now subst |].
      specialize (F1 _ Hb). specialize (F2 _ Ha). lia. }
    subst b. f_equal. apply IH; auto.
    intros x. split; intros Hx.
    + destruct (proj1 (H x) (or_intror Hx)) as [E | Hx']; [| exact Hx'].
      subst. contradiction.
    + destruct (proj2 (H x) (or_intror Hx)) as [E | Hx']; [| exact Hx'].
      subst. contradiction.
Qed.

Lemma distinct_Z_ext (l1 l2 : list Z) :
  (forall x, In x l1 <-> In x l2) ->
  sorted Z.leb (unique Z.eqb l1) = sorted Z.leb (unique Z.eqb l2).
Proof.
  intros H. apply increasing_ext.
  - apply sorted_Z_sorted.
  - apply (distinct_NoDup _ Z.eqb_eq).
  - apply sorted_Z_sorted.
  - apply (distinct_NoDup _ Z.eqb_eq).
  - intros x. now rewrite !(distinct_In _ Z.eqb_eq).
Qed.

(** *** Groups *)

Lemma select_times_raw (kv b : Z) (df : dataframe) :
  select_times kv b df = map Fin (raw_times kv b df).
Proof. unfold select_times, raw_times. now rewrite map_map. Qed.

Lemma group_times_k_bytes (kv b : Z) (df : dataframe) :
  group_times (fun r => (k r, bytes r)) (kv, b) df = select_times kv b df.
Proof. reflexivity. Qed.

Lemma group_times_bytes_k (kv b : Z) (df : dataframe) :
  group_times (fun r => (bytes r, k r)) (b, kv) df = select_times kv b df.
Proof.
  unfold group_times, select_times. f_equal. apply filter_ext.
  intros r. unfold key_eqb. simpl. apply andb_comm.
Qed.

Lemma nanmean_select (kv b : Z) (df : dataframe) :
  nanmean (select_times kv b df) = group_mean df kv b.
Proof. rewrite select_times_raw. apply nanmean_Fin. Qed.

Lemma has_samples_In (kv b : Z) (df : dataframe) :
  has_samples kv b df = true <-> In (kv, b) (map (fun r => (k r, bytes r)) df).
Proof.
  unfold has_samples. rewrite existsb_exists, in_map_iff.
  split; intros [r [H1 H2]]; exists r.
  - apply andb_true_iff in H2. rewrite !Z.eqb_eq in H2.
    destruct H2 as [<- <-]. auto.
  - injection H1 as <- <-. rewrite !Z.eqb_refl. auto.
Qed.

Lemma has_samples_In_swap (kv b : Z) (df : dataframe) :
  has_samples kv b df = true <-> In (b, kv) (map (fun r => (bytes r, k r)) df).
Proof.
  rewrite has_samples_In, !in_map_iff.
  split; intros [r [H1 H2]]; exists r; injection H1 as <- <-; auto.
Qed.

Lemma no_samples_raw (kv b : Z) (df : dataframe) :
  has_samples kv b df = false -> raw_times kv b df = [].
Proof.
  unfold has_samples, raw_times. induction df as [| r df IH]; simpl; [reflexivity |].
  intros H. apply orb_false_iff in H. destruct H as [H1 H2].
  rewrite H1. auto.
Qed.

Lemma has_samples_raw (kv b : Z) (df : dataframe) :
  has_samples kv b df = true -> (0 < length (raw_times kv b df))%nat.
Proof.
  unfold has_samples, raw_times. induction df as [| r df IH]; simpl; [discriminate |].
  destruct ((k r =? kv) && (bytes r =? b)); simpl; [lia | auto].
Qed.

Lemma has_samples_bytes (kv b : Z) (df : dataframe) :
  has_samples kv b df = true -> In b (map bytes df).
Proof.
  rewrite has_samples_In, !in_map_iff. intros [r [H1 H2]].
  exists r. injection H1 as _ <-. auto.
Qed.

Lemma byte_values_In (df : dataframe) (b : Z) :
  In b (byte_values df) <-> In b (map bytes df).
Proof. apply (distinct_In _ Z.eqb_eq). Qed.

Lemma k_values_In (df : dataframe) (kv : Z) :
  In kv (k_values df) <-> In kv (map k df).
Proof. apply (distinct_In _ Z.eqb_eq). Qed.

(** A cell of the pivot holds the mean of its group, and NaN when the
    group has no rows. *)
Lemma pivot_cell (df : dataframe) (kv b : Z) :
  match lookup key_eqb (kv, b) (mean_times df) with
  | Some v => v
  | None => NaN
  end = group_mean df kv b.
Proof.
  unfold mean_times, groupby.
  destruct (has_samples kv b df) eqn:E.
  - rewrite (lookup_map_In _ key_eqb_eq).
    + rewrite group_times_k_bytes. apply nanmean_select.
    + apply (distinct_In _ key_eqb_eq). now apply has_samples_In.
  - rewrite (lookup_map_notin _ key_eqb_eq).
    + unfold group_mean. now rewrite (no_samples_raw _ _ _ E).
    + rewrite (distinct_In _ key_eqb_eq), <- has_samples_In, E. discriminate.
Qed.

Lemma keys_snd_In (df : dataframe) (x : Z) :
  In x (map snd (sorted key_leb (unique key_eqb (map (fun r => (k r, bytes r)) df))))
  <-> In x (map bytes df).
Proof.
  rewrite !in_map_iff. split.
  - intros [g [<- Hg]]. apply (distinct_In _ key_eqb_eq) in Hg.
    apply in_map_iff in Hg. destruct Hg as [r [<- Hr]]. exists r. auto.
  - intros [r [<- Hr]]. exists (k r, bytes r). split; [reflexivity |].
    apply (distinct_In _ key_eqb_eq). apply in_map_iff. exists r. auto.
Qed.

Lemma keys_fst_In (df : dataframe) (x : Z) :
  In x (map fst (sorted key_leb (unique key_eqb (map (fun r => (k r, bytes r)) df))))
  <-> In x (map k df).
Proof.
  rewrite !in_map_iff. split.
  - intros [g [<- Hg]]. apply (distinct_In _ key_eqb_eq) in Hg.
    apply in_map_iff in Hg. destruct Hg as [r [<- Hr]]. exists r. auto.
  - intros [r [<- Hr]]. exists (k r, bytes r). split; [reflexivity |].
    apply (distinct_In _ key_eqb_eq). apply in_map_iff. exists r. auto.
Qed.

(** The pivot of the group means never meets a duplicate entry; its rows
    are the distinct bytes values, its columns the distinct k values. *)
Lemma pivot_mean_times (df : dataframe) :
  pivot (mean_times df)
  = Ok (mkFrame (k_values df)
          (map (fun b => (b, map (fun kv => group_mean df kv b) (k_values df)))
               (byte_values df))).
Proof.
  unfold pivot.
  match goal with |- context [has_dup key_eqb ?l] =>
    assert (Hk : l = sorted key_leb
                       (unique key_eqb (map (fun r => (k r, bytes r)) df)))
  end.
  { unfold mean_times, groupby. rewrite map_map. simpl. apply map_id. }
  rewrite Hk, (has_dup_NoDup _ key_eqb_eq) by apply (distinct_NoDup _ key_eqb_eq).
  match goal with |- Ok (mkFrame ?cols (map _ ?idx)) = _ =>
    assert (Hi : idx = byte_values df);
    [| assert (Hc : cols = k_values df) ]
  end.
  - apply distinct_Z_ext. intros x.
    unfold mean_times, groupby. rewrite map_map. simpl.
    apply keys_snd_In.
  - apply distinct_Z_ext. intros x.
    unfold mean_times, groupby. rewrite map_map. simpl.
    apply keys_fst_In.
  - rewrite Hi, Hc. do 2 f_equal.
    apply map_ext. intros b. f_equal.
    apply map_ext. intros kv. apply pivot_cell.
Qed.

(** *** Columns computed row by row *)

Lemma zip_with_map {I V W X : Type} (f : V -> W -> X)
    (g : I -> V) (h : I -> W) (l : list I) :
  zip_with f (map (fun i => (i, g i)) l) (map (fun i => (i, h i)) l)
  = map (fun i => (i, f (g i) (h i))) l.
Proof. induction l as [| i l IH]; simpl; [reflexivity | now rewrite IH]. Qed.

Lemma smap_map {I V W : Type} (f : V -> W) (g : I -> V) (l : list I) :
  smap f (map (fun i => (i, g i)) l) = map (fun i => (i, f (g i))) l.
Proof. unfold smap. now rewrite map_map. Qed.

Lemma values_map {I V : Type} (g : I -> V) (l : list I) :
  values (map (fun i => (i, g i)) l) = map g l.
Proof. unfold values. now rewrite map_map. Qed.

Lemma attach_map (put : fval -> list fval -> list fval)
    (vs : Z -> list fval) (g : Z -> fval) (l : list Z) :
  attach put (map (fun b => (b, vs b)) l) (map (fun b => (b, g b)) l)
  = map (fun b => (b, put (g b) (vs b))) l.
Proof. induction l as [| i l IH]; simpl; [reflexivity | now rewrite IH]. Qed.

Lemma getitem_map (name : string) (cols : list string) (j : nat)
    (vs : Z -> list fval) (l : list Z) :
  index_of String.eqb name cols = Some j ->
  getitem name (mkFrame cols (map (fun b => (b, vs b)) l))
  = Ok (map (fun b => (b, nth j (vs b) NaN)) l).
Proof.
  intros H. unfold getitem. simpl. rewrite H, map_map. reflexivity.
Qed.

Lemma setitem_map_new (name : string) (cols : list string)
    (vs : Z -> list fval) (g : Z -> fval) (l : list Z) :
  index_of String.eqb name cols = None ->
  setitem name (map (fun b => (b, g b)) l) (mkFrame cols (map (fun b => (b, vs b)) l))
  = mkFrame (cols ++ [name]) (map (fun b => (b, vs b ++ [g b])) l).
Proof.
  intros H. unfold setitem. simpl. rewrite H, attach_map. reflexivity.
Qed.

Lemma select_map (names cols : list string) (js : list nat)
    (vs : Z -> list fval) (l : list Z) :
  rmap_list (fun n => match index_of String.eqb n cols with
                      | Some j => Ok j
                      | None => Raise (ColumnError n)
                      end) names = Ok js ->
  select names (mkFrame cols (map (fun b => (b, vs b)) l))
  = Ok (mkFrame names (map (fun b => (b, map (fun j => nth j (vs b) NaN) js)) l)).
Proof.
  intros H. unfold select. simpl. rewrite H. simpl. now rewrite map_map.
Qed.

(** The value of a table computed row by row. *)
Lemma cell_map (cols : list string) (vs : Z -> list fval) (l : list Z)
    (b : Z) (name : string) (j : nat) :
  In b l -> index_of String.eqb name cols = Some j ->
  cell (mkFrame cols (map (fun b => (b, vs b)) l)) b name = nth_error (vs b) j.
Proof.
  intros Hb Hj. unfold cell. simpl.
  now rewrite (lookup_map_In _ Z.eqb_eq _ _ _ Hb), Hj.
Qed.

(** *** The run of statisticaltest.py *)

Section StatisticalTestFacts.
Variable ttest_ind : list fval -> list fval -> fval * fval.

Lemma for_each_print (f : Z -> out) (l : list Z) :
  for_each l (fun b => print (f b)) = (map f l, Ok tt).
Proof.
  induction l as [| b l IH]; simpl; [reflexivity |].
  rewrite IH. reflexivity.
Qed.

(** With two distinct k values the script runs to its end and prints
    the report in closed form. *)
Lemma statisticaltest_two (df : dataframe) (ka kb : Z) :
  k_values df = [ka; kb] ->
  statisticaltest ttest_ind df = (report ttest_ind df ka kb, Ok tt).
Proof.
  intros Hk. unfold statisticaltest.
  rewrite pivot_mean_times, Hk.
  cbn [lift bind set_columns columns rows length Nat.eqb print app map].
  rewrite !(getitem_map "k1" _ 0) by reflexivity.
  rewrite !(getitem_map "k8" _ 1) by reflexivity.
  cbn [lift bind app nth].
  rewrite !zip_with_map, smap_map.
  rewrite setitem_map_new by reflexivity.
  cbn [app].
  rewrite !(getitem_map "k1" _ 0) by reflexivity.
  rewrite !(getitem_map "k8" _ 1) by reflexivity.
  cbn [lift bind app nth].
  rewrite !zip_with_map.
  rewrite setitem_map_new by reflexivity.
  cbn [app].
  rewrite (select_map _ _ [2; 3]%nat) by reflexivity.
  rewrite !(getitem_map "k1" _ 0) by reflexivity.
  rewrite !(getitem_map "k8" _ 1) by reflexivity.
  cbn [lift bind app nth map].
  rewrite !zip_with_map, values_map, for_each_print.
  reflexivity.
Qed.
Lemma k_values_length (df : dataframe) :
  length (k_values df) = length (unique Z.eqb (map k df)).
Proof. apply Permutation_length, sorted_perm. Qed.

(** With any other number of distinct k values the renaming of the
    columns raises, before the first line is printed. *)
Lemma statisticaltest_other (df : dataframe) :
  length (k_values df) <> 2%nat ->
  statisticaltest ttest_ind df
  = ([], Raise (LengthMismatch (length (k_values df)) 2)).
Proof.
  intros Hk. unfold statisticaltest.
  rewrite pivot_mean_times.
  cbn [lift bind]. unfold set_columns. cbn [columns rows length].
  destruct (Nat.eqb_spec 2 (length (k_values df))) as [E | _].
  - exfalso. apply Hk. now rewrite <- E.
  - reflexivity.
Qed.

Lemma k_values_two (df : dataframe) (ka kb : Z) :
  k_values df = [ka; kb] ->
  ka < kb /\ In ka (map k df) /\ In kb (map k df)
  /\ forall r, In r df -> k r = ka \/ k r = kb.
Proof.
  intros Hk.
  pose proof (sorted_Z_sorted (unique Z.eqb (map k df))) as Hs.
  pose proof (distinct_NoDup _ Z.eqb_eq Z.leb (map k df)) as Hn.
  fold (k_values df) in Hs, Hn. rewrite Hk in Hs, Hn.
  inversion Hs as [| ? ? _ Hf]; subst.
  inversion Hf as [| ? ? Hle _]; subst.
  inversion Hn as [| ? ? Hni _]; subst.
  repeat split.
  - assert (ka <> kb) by (intros ->; apply Hni; now left). lia.
  - apply k_values_In. rewrite Hk. now left.
  - apply k_values_In. rewrite Hk. right. now left.
  - intros r Hr.
    assert (Hin : In (k r) (k_values df)) by (apply k_values_In; now apply in_map).
    rewrite Hk in Hin. simpl in Hin. intuition.
Qed.

Lemma tables_reports (f : Z -> size_report) (l : list Z) :
  tables (map (fun b => SizeReport (f b)) l) = [].
Proof. induction l; simpl; auto. Qed.

Lemma size_reports_reports (f : Z -> size_report) (l : list Z) :
  size_reports (map (fun b => SizeReport (f b)) l) = map f l.
Proof. induction l; simpl; [reflexivity | now f_equal]. Qed.

Lemma tables_report (df : dataframe) (ka kb : Z) :
  tables (report ttest_ind df ka kb)
  = [mean_table df ka kb; improvement_table df ka kb].
Proof. unfold report. simpl. now rewrite tables_reports. Qed.

Lemma cohens_d_report (df : dataframe) (ka kb : Z) :
  printed_cohens_d (report ttest_ind df ka kb)
  = Some (fdiv (nanmean (column_differences df ka kb))
               (nanstd 1 (column_differences df ka kb))).
Proof. reflexivity. Qed.

Lemma report_for_report (df : dataframe) (ka kb b : Z) :
  In b (map bytes df) ->
  report_for b (report ttest_ind df ka kb) = Some (size_test ttest_ind df b).
Proof.
  intros Hb. unfold report_for, report. simpl.
  rewrite size_reports_reports.
  apply (unique_In _ Z.eqb_eq) in Hb.
  induction (unique Z.eqb (map bytes df)) as [| x l IH]; simpl; [contradiction |].
  destruct (Z.eqb_spec x b) as [-> | Hx]; [reflexivity |].
  destruct Hb as [Hb | Hb]; [contradiction | auto].
Qed.

Lemma mean_table_cells (df : dataframe) (ka kb b : Z) :
  In b (map bytes df) ->
  cell (mean_table df ka kb) b "k1" = Some (group_mean df ka b)
  /\ cell (mean_table df ka kb) b "k8" = Some (group_mean df kb b).
Proof.
  intros Hb. apply byte_values_In in Hb. unfold mean_table. split.
  - now rewrite (cell_map _ _ _ _ _ 0%nat Hb).
  - now rewrite (cell_map _ _ _ _ _ 1%nat Hb).
Qed.

Lemma improvement_table_cells (df : dataframe) (ka kb b : Z) :
  In b (map bytes df) ->
  cell (improvement_table df ka kb) b "improvement_%"
  = Some (improvement_pct (group_mean df ka b) (group_mean df kb b))
  /\ cell (improvement_table df ka kb) b "time_saved_s"
     = Some (fsub (group_mean df ka b) (group_mean df kb b)).
Proof.
  intros Hb. apply byte_values_In in Hb. unfold improvement_table. split.
  - now rewrite (cell_map _ _ _ _ _ 0%nat Hb).
  - now rewrite (cell_map _ _ _ _ _ 1%nat Hb).
Qed.

Lemma size_test_improvement (df : dataframe) (b : Z) :
  mean_improvement (size_test ttest_ind df b)
  = improvement_pct (group_mean df 1 b) (group_mean df 8 b).
Proof. unfold size_test. simpl. now rewrite !nanmean_select. Qed.

Lemma no_samples_mean (df : dataframe) (kv b : Z) :
  has_samples kv b df = false -> group_mean df kv b = NaN.
Proof. intros H. unfold group_mean. now rewrite (no_samples_raw _ _ _ H). Qed.

Lemma has_samples_mean (df : dataframe) (kv b : Z) :
  has_samples kv b df = true ->
  group_mean df kv b
  = Fin (Rsum (raw_times kv b df) / INR (length (raw_times kv b df))).
Proof.
  intros H. apply has_samples_raw in H. unfold group_mean, arith_mean.
  destruct (raw_times kv b df); [simpl in H; lia | reflexivity].
Qed.
(** *** The printed tables and the per-size loop *)

(** C9.  The renaming of the pivot columns is positional.  It raises
    exactly when the number of distinct k values in the input is not 2,
    and then nothing at all has been printed.  With two distinct k
    values [ka < kb], whatever they are, the run ends normally and the
    columns labelled k1 and k8 hold the group means of the smallest and
    of the largest k value. *)
Theorem rename_is_positional (df : dataframe) :
  ((exists e, status (statisticaltest ttest_ind df) = Raise e)
   <-> length (unique Z.eqb (map k df)) <> 2%nat)
  /\ (forall e, status (statisticaltest ttest_ind df) = Raise e ->
                output (statisticaltest ttest_ind df) = []
                /\ e = LengthMismatch (length (unique Z.eqb (map k df))) 2)
  /\ (forall ka kb, k_values df = [ka; kb] ->
        ka < kb
        /\ In ka (map k df) /\ In kb (map k df)
        /\ (forall r, In r df -> ka <= k r <= kb)
        /\ status (statisticaltest ttest_ind df) = Ok tt
        /\ exists t,
             nth_error (tables (output (statisticaltest ttest_ind df))) 0 = Some t
             /\ columns t = ["k1"; "k8"]%string
             /\ forall b, In b (map bytes df) ->
                  cell t b "k1" = Some (arith_mean (raw_times ka b df))
                  /\ cell t b "k8" = Some (arith_mean (raw_times kb b df))).
Proof.
  repeat split.
  - intros [e He] Hlen. rewrite <- k_values_length in Hlen.
    destruct (k_values df) as [| ka [| kb [| ? ?]]] eqn:Hk; try discriminate.
    rewrite (statisticaltest_two df ka kb Hk) in He. discriminate.
  - intros Hlen. rewrite <- k_values_length in Hlen.
    rewrite (statisticaltest_other df Hlen). eexists. reflexivity.
  - destruct (Nat.eq_dec (length (k_values df)) 2) as [E | E].
    + destruct (k_values df) as [| ka [| kb [| ? ?]]] eqn:Hk; try discriminate.
      rewrite (statisticaltest_two df ka kb Hk) in H. discriminate.
    + now rewrite (statisticaltest_other df E).
  - destruct (Nat.eq_dec (length (k_values df)) 2) as [E | E].
    + destruct (k_values df) as [| ka [| kb [| ? ?]]] eqn:Hk; try discriminate.
      rewrite (statisticaltest_two df ka kb Hk) in H. discriminate.
    + rewrite (statisticaltest_other df E) in H. simpl in H.
      injection H as <-. now rewrite k_values_length.
  - now apply (k_values_two df ka kb).
  - now apply (k_values_two df ka kb).
  - now apply (k_values_two df ka kb).
  - destruct (k_values_two df ka kb H) as (Hlt & _ & _ & Hr).
    destruct (Hr r H0); lia.
  - destruct (k_values_two df ka kb H) as (Hlt & _ & _ & Hr).
    destruct (Hr r H0); lia.
  - now rewrite (statisticaltest_two df ka kb H).
  - exists (mean_table df ka kb).
    rewrite (statisticaltest_two df ka kb H). unfold output. simpl fst.
    rewrite tables_report. repeat split; try reflexivity;
      now apply mean_table_cells.
Qed.

(** C3, amended.  When both k = 1 and k = 8 occur in the input and no
    other k value does, the reshaped table is printed with the two
    columns k1 and k8 and exactly one row per distinct bytes value; the
    cells hold the mean of the k = 1 and of the k = 8 samples of that
    bytes value, a number where the group has samples and NaN where it
    has none. *)
Theorem reshape_two_levels (df : dataframe) :
  k_values df = [1; 8] ->
  exists t rest,
    output (statisticaltest ttest_ind df)
    = Text "Mean Transfer Times:" :: Table t :: rest
    /\ columns t = ["k1"; "k8"]%string
    /\ map fst (rows t) = byte_values df
    /\ NoDup (byte_values df)
    /\ (forall b, In b (byte_values df) <-> In b (map bytes df))
    /\ forall b, In b (map bytes df) ->
         cell t b "k1" = Some (arith_mean (raw_times 1 b df))
         /\ cell t b "k8" = Some (arith_mean (raw_times 8 b df))
         /\ (has_samples 1 b df = true -> exists x, cell t b "k1" = Some (Fin x))
         /\ (has_samples 8 b df = true -> exists x, cell t b "k8" = Some (Fin x))
         /\ (has_samples 1 b df = false -> cell t b "k1" = Some NaN)
         /\ (has_samples 8 b df = false -> cell t b "k8" = Some NaN).
Proof.
  intros Hk. rewrite (statisticaltest_two df 1 8 Hk).
  exists (mean_table df 1 8). eexists. split; [reflexivity |].
  split; [reflexivity |]. split.
  { unfold mean_table. simpl. rewrite map_map. simpl. apply map_id. }
  split; [apply (distinct_NoDup _ Z.eqb_eq) |].
  split; [apply byte_values_In |].
  intros b Hb. destruct (mean_table_cells df 1 8 b Hb) as [H1 H8].
  rewrite H1, H8. repeat split.
  - intros H. rewrite (has_samples_mean df 1 b H). eauto.
  - intros H. rewrite (has_samples_mean df 8 b H). eauto.
  - intros H. now rewrite (no_samples_mean df 1 b H).
  - intros H. now rewrite (no_samples_mean df 8 b H).
Qed.

(** C4, amended.  When the distinct k values of the input are exactly 1
    and 8, for every bytes value of the input the k1 and k8 means printed
    in the pivot table and in the per-size loop are the arithmetic means
    of the raw time values of the records with that (k, bytes) pair, and
    the printed counts are the numbers of those records. *)
Theorem printed_means_and_counts (df : dataframe) (b : Z) :
  k_values df = [1; 8] -> In b (map bytes df) ->
  exists t r,
    nth_error (tables (output (statisticaltest ttest_ind df))) 0 = Some t
    /\ cell t b "k1" = Some (arith_mean (raw_times 1 b df))
    /\ cell t b "k8" = Some (arith_mean (raw_times 8 b df))
    /\ report_for b (output (statisticaltest ttest_ind df)) = Some r
    /\ k1_mean r = arith_mean (raw_times 1 b df)
    /\ k8_mean r = arith_mean (raw_times 8 b df)
    /\ k1_n r = length (raw_times 1 b df)
    /\ k8_n r = length (raw_times 8 b df).
Proof.
  intros Hk Hb. rewrite (statisticaltest_two df 1 8 Hk).
  exists (mean_table df 1 8), (size_test ttest_ind df b).
  unfold output. simpl fst. rewrite tables_report.
  destruct (mean_table_cells df 1 8 b Hb) as [H1 H8].
  repeat split; try assumption.
  - now apply report_for_report.
  - unfold size_test. simpl. apply nanmean_select.
  - unfold size_test. simpl. apply nanmean_select.
  - unfold size_test. simpl. now rewrite select_times_raw, length_map.
  - unfold size_test. simpl. now rewrite select_times_raw, length_map.
Qed.

(** *** Effect size *)

Lemma nanmean_finite_part (xs : list fval) (ys : list R) :
  dropna xs = map Fin ys -> nanmean xs = arith_mean ys.
Proof.
  intros H. rewrite <- nanmean_Fin. unfold nanmean.
  now rewrite H, dropna_Fin.
Qed.

Lemma nanstd_finite_part (xs : list fval) (ys : list R) :
  dropna xs = map Fin ys -> nanstd 1 xs = sample_std ys.
Proof.
  intros H. rewrite <- nanstd_Fin. unfold nanstd, nanvar.
  now rewrite H, dropna_Fin.
Qed.

(** The differences that survive the NaN-skipping reductions are those
    of the bytes values with samples in both groups. *)
Lemma differences_finite_part (df : dataframe) (ka kb : Z) (l : list Z) :
  dropna (map (fun b => fsub (group_mean df ka b) (group_mean df kb b)) l)
  = map Fin
      (map (fun b => (Rsum (raw_times ka b df) / INR (length (raw_times ka b df))
                      - Rsum (raw_times kb b df) / INR (length (raw_times kb b df)))%R)
           (filter (fun b => has_samples ka b df && has_samples kb b df) l)).
Proof.
  induction l as [| b l IH]; [reflexivity |].
  cbn [map filter]. unfold dropna in *. cbn [filter].
  destruct (has_samples ka b df) eqn:Ea.
  - rewrite (has_samples_mean df ka b Ea).
    destruct (has_samples kb b df) eqn:Eb.
    + rewrite (has_samples_mean df kb b Eb). simpl. now rewrite IH.
    + rewrite (no_samples_mean df kb b Eb). simpl. exact IH.
  - rewrite (no_samples_mean df ka b Ea). simpl. exact IH.
Qed.

(** C1, amended.  When the distinct k values of the input are exactly 1
    and 8, the Cohen's d printed is the mean of the differences over
    their Bessel-corrected sample standard deviation, the differences
    being k1 mean - k8 mean taken over exactly the bytes values with
    samples in both the k = 1 and the k = 8 group. *)
Theorem cohens_d_paired (df : dataframe) :
  k_values df = [1; 8] ->
  printed_cohens_d (output (statisticaltest ttest_ind df))
  = Some (spec_cohens_d df).
Proof.
  intros Hk. rewrite (statisticaltest_two df 1 8 Hk).
  unfold output. simpl fst. rewrite cohens_d_report.
  unfold spec_cohens_d, column_differences, paired_differences.
  rewrite (nanmean_finite_part _ _ (differences_finite_part df 1 8 _)).
  rewrite (nanstd_finite_part _ _ (differences_finite_part df 1 8 _)).
  reflexivity.
Qed.

(** *** Division by zero *)

Lemma improvement_of_zero (y : fval) : ~ finite (improvement_pct (Fin 0) y).
Proof.
  assert (H100 : sign_of 100 = Pos) by (apply sign_of_pos; lra).
  assert (H0 : sign_of 0 = Zero) by now apply sign_of_zero.
  intros [r Hr]. unfold improvement_pct, fsub in Hr.
  destruct y as [c | | |]; cbn [fopp fadd fdiv] in Hr; try rewrite H0 in Hr.
  - destruct (sign_of (0 + - c)); cbn [inf_of_sign fmul] in Hr;
      try rewrite H100 in Hr; discriminate.
  - cbn [fmul] in Hr. rewrite H100 in Hr. discriminate.
  - cbn [fmul] in Hr. rewrite H100 in Hr. discriminate.
  - cbn [fmul] in Hr. discriminate.
Qed.

(** C2, amended.  For every input with two distinct k values the report
    runs to its end, Cohen's d included; where a k1 group mean is exactly
    zero the improvement percentage is an infinity or NaN, in the
    comparison table and in the per-size loop alike.  Division by zero
    yields a value and raises no fault. *)
Theorem zero_mean_is_no_fault (df : dataframe) (ka kb : Z) :
  k_values df = [ka; kb] ->
  status (statisticaltest ttest_ind df) = Ok tt
  /\ (exists d, printed_cohens_d (output (statisticaltest ttest_ind df)) = Some d)
  /\ exists t1 t2,
       tables (output (statisticaltest ttest_ind df)) = [t1; t2]
       /\ forall b, In b (map bytes df) ->
            (cell t1 b "k1" = Some (Fin 0) ->
             exists v, cell t2 b "improvement_%" = Some v /\ ~ finite v)
            /\ exists r,
                 report_for b (output (statisticaltest ttest_ind df)) = Some r
                 /\ (k1_mean r = Fin 0 -> ~ finite (mean_improvement r)).
Proof.
  intros Hk. rewrite (statisticaltest_two df ka kb Hk).
  unfold output, status. simpl fst. simpl snd.
  split; [reflexivity |]. split; [rewrite cohens_d_report; eauto |].
  exists (mean_table df ka kb), (improvement_table df ka kb).
  split; [apply tables_report |].
  intros b Hb. split.
  - intros H0. destruct (mean_table_cells df ka kb b Hb) as [H1 _].
    rewrite H1 in H0. injection H0 as H0.
    destruct (improvement_table_cells df ka kb b Hb) as [Hi _].
    rewrite Hi, H0. eexists. split; [reflexivity |].
    apply improvement_of_zero.
  - exists (size_test ttest_ind df b). split; [now apply report_for_report |].
    rewrite size_test_improvement. unfold size_test. simpl.
    rewrite nanmean_select. intros ->. apply improvement_of_zero.
Qed.
End StatisticalTestFacts.

(** *** barchart.py *)

Lemma rmap_list_cases {A B : Type} (f : A -> result B)
    (p : A -> bool) (g : A -> B) (e : A -> error) (l : list A) :
  (forall x, f x = if p x then Ok (g x) else Raise (e x)) ->
  (forallb p l = true /\ rmap_list f l = Ok (map g l))
  \/ (exists x, In x l /\ p x = false /\ rmap_list f l = Raise (e x)).
Proof.
  intros Hf. induction l as [| x l IH]; simpl; [now left |].
  rewrite Hf. destruct (p x) eqn:Ex; simpl.
  - destruct IH as [[Hall Hok] | [y (Hy & Hp & Hr)]].
    + left. now rewrite Hok.
    + right. exists y. rewrite Hr. auto.
  - right. exists x. auto.
Qed.

Lemma bar_keys_In (df : dataframe) (kv b : Z) :
  In (b, kv) (sorted key_leb (unique key_eqb (map (fun r => (bytes r, k r)) df)))
  <-> has_samples kv b df = true.
Proof. now rewrite (distinct_In _ key_eqb_eq), has_samples_In_swap. Qed.

Lemma groupby_entry {V : Type} (agg : list fval -> V) (df : dataframe) (kv b : Z) :
  lookup key_eqb (b, kv) (groupby (fun r => (bytes r, k r)) agg df)
  = if has_samples kv b df then Some (agg (select_times kv b df)) else None.
Proof.
  unfold groupby. destruct (has_samples kv b df) eqn:E.
  - rewrite (lookup_map_In _ key_eqb_eq) by now apply bar_keys_In.
    now rewrite group_times_bytes_k.
  - apply (lookup_map_notin _ key_eqb_eq).
    rewrite bar_keys_In, E. discriminate.
Qed.

Lemma cis_groupby (df : dataframe) :
  cis (aggregate df)
  = groupby (fun r => (bytes r, k r))
      (fun xs => fdiv (fmul (Fin 1.96) (nanstd 1 xs)) (fsqrt (of_nat (count xs)))) df.
Proof.
  unfold aggregate, groupby. cbn [cis].
  now rewrite !smap_map, zip_with_map.
Qed.

Lemma sqrt_count_pos (n : nat) :
  (0 < n)%nat ->
  fsqrt (of_nat n) = Fin (sqrt (INR n)) /\ (0 < sqrt (INR n))%R.
Proof.
  intros Hn. pose proof (INR_pos n Hn) as Hp. split.
  - unfold fsqrt, of_nat. now rewrite (sign_of_pos _ Hp).
  - now apply sqrt_lt_R0.
Qed.

(** [1.96 * s / r] and [1.96 * (s / r)] agree for a positive divisor. *)
Lemma scale_then_divide (s : fval) (r : R) :
  (0 < r)%R ->
  fdiv (fmul (Fin 1.96) s) (Fin r) = fmul (Fin 1.96) (fdiv s (Fin r)).
Proof.
  intros Hr.
  assert (Hc : sign_of 1.96 = Pos) by (apply sign_of_pos; lra).
  destruct s as [x | | |]; cbn [fmul fdiv].
  - rewrite (sign_of_pos r Hr). cbn [fmul]. f_equal. field. lra.
  - rewrite Hc, (sign_of_pos r Hr). cbn [inf_of_sign fdiv].
    now rewrite (sign_of_pos r Hr).
  - rewrite Hc, (sign_of_pos r Hr). cbn [inf_of_sign sign_opp fdiv].
    now rewrite (sign_of_pos r Hr).
  - reflexivity.
Qed.

Lemma cis_entry (df : dataframe) (kv b : Z) :
  has_samples kv b df = true ->
  lookup key_eqb (b, kv) (cis (aggregate df)) = Some (half_width (raw_times kv b df)).
Proof.
  intros H. rewrite cis_groupby, groupby_entry, H. f_equal.
  rewrite select_times_raw, nanstd_Fin, count_Fin.
  destruct (sqrt_count_pos _ (has_samples_raw _ _ _ H)) as [-> Hp].
  unfold half_width.
  destruct (sqrt_count_pos _ (has_samples_raw _ _ _ H)) as [-> _].
  now apply scale_then_divide.
Qed.

Lemma at_key_means (df : dataframe) (kv b : Z) :
  at_key (means (aggregate df)) b kv
  = if has_samples kv b df then Ok (group_mean df kv b) else Raise (KeyError b kv).
Proof.
  unfold at_key, aggregate. cbn [means]. rewrite groupby_entry.
  destruct (has_samples kv b df); [| reflexivity].
  now rewrite nanmean_select.
Qed.

Lemma at_key_cis (df : dataframe) (kv b : Z) :
  at_key (cis (aggregate df)) b kv
  = if has_samples kv b df then Ok (half_width (raw_times kv b df))
    else Raise (KeyError b kv).
Proof.
  unfold at_key. destruct (has_samples kv b df) eqn:E.
  - now rewrite (cis_entry df kv b E).
  - now rewrite cis_groupby, groupby_entry, E.
Qed.

(** One bar group: drawn when every bytes value has samples at [kv],
    a KeyError at the first bytes value that has none. *)
Lemma draw_bars_cases (df : dataframe) (i : nat) (kv : Z) :
  (forallb (fun b => has_samples kv b df) (byte_values df) = true
   /\ draw_bars (aggregate df) (byte_values df) i kv
      = Ok (mkBar i kv (map (fun b => group_mean df kv b) (byte_values df))
                  (map (fun b => half_width (raw_times kv b df)) (byte_values df))))
  \/ (exists b, In b (byte_values df) /\ has_samples kv b df = false
                /\ draw_bars (aggregate df) (byte_values df) i kv
                   = Raise (KeyError b kv)).
Proof.
  unfold draw_bars.
  destruct (rmap_list_cases (fun b => at_key (means (aggregate df)) b kv)
              (fun b => has_samples kv b df) (fun b => group_mean df kv b)
              (fun b => KeyError b kv) (byte_values df)
              (fun b => at_key_means df kv b))
    as [[Hall Hm] | [b (Hb & Hp & Hr)]].
  - left. split; [exact Hall |]. rewrite Hm. cbn [rbind].
    destruct (rmap_list_cases (fun b => at_key (cis (aggregate df)) b kv)
                (fun b => has_samples kv b df)
                (fun b => half_width (raw_times kv b df))
                (fun b => KeyError b kv) (byte_values df)
                (fun b => at_key_cis df kv b))
      as [[_ Hc] | [b (Hb & Hp & _)]].
    + now rewrite Hc.
    + rewrite forallb_forall in Hall. rewrite (Hall b Hb) in Hp. discriminate.
  - right. exists b. rewrite Hr. auto.
Qed.

(** The chart is drawn when every bytes value has samples at k = 1 and at
    k = 8; otherwise the first missing pair raises a KeyError. *)
Lemma barchart_cases (df : dataframe) :
  ((forall b, In b (map bytes df) ->
      has_samples 1 b df = true /\ has_samples 8 b df = true)
   /\ barchart df
      = Ok [ mkBar 0 1 (map (fun b => group_mean df 1 b) (byte_values df))
                   (map (fun b => half_width (raw_times 1 b df)) (byte_values df));
             mkBar 1 8 (map (fun b => group_mean df 8 b) (byte_values df))
                   (map (fun b => half_width (raw_times 8 b df)) (byte_values df)) ])
  \/ (exists b kv, In b (map bytes df) /\ (kv = 1 \/ kv = 8)
                   /\ has_samples kv b df = false
                   /\ barchart df = Raise (KeyError b kv)).
Proof.
  unfold barchart. cbn [rmap_list fst snd]. fold (byte_values df).
  destruct (draw_bars_cases df 0 1) as [[A1 D1] | [b (Hb & Hp & D1)]].
  - destruct (draw_bars_cases df 1 8) as [[A8 D8] | [b (Hb & Hp & D8)]].
    + left. rewrite D1, D8. split; [| reflexivity].
      intros b Hb. apply byte_values_In in Hb.
      rewrite forallb_forall in A1, A8. auto.
    + right. exists b, 8. rewrite D1, D8. apply byte_values_In in Hb. auto.
  - right. exists b, 1. rewrite D1. apply byte_values_In in Hb. auto.
Qed.

(** C7.  For every (bytes, k) group of the input, the half-width of the
    error bar is 1.96 * (s / sqrt n), with s the Bessel-corrected sample
    standard deviation of the group's time values and n their number:
    so it stands in the Series [cis], and so it reaches every bar that is
    drawn. *)
Theorem error_bar_half_width (df : dataframe) (b kv : Z) :
  has_samples kv b df = true ->
  lookup key_eqb (b, kv) (stds (aggregate df))
  = Some (sample_std (raw_times kv b df))
  /\ lookup key_eqb (b, kv) (ns (aggregate df))
     = Some (length (raw_times kv b df))
  /\ lookup key_eqb (b, kv) (cis (aggregate df))
     = Some (fmul (Fin 1.96)
               (fdiv (sample_std (raw_times kv b df))
                     (fsqrt (of_nat (length (raw_times kv b df))))))
  /\ forall bars br, barchart df = Ok bars -> In br bars ->
       errs br
       = map (fun b' => half_width (raw_times (bar_k br) b' df)) (byte_values df).
Proof.
  intros H. repeat split.
  - unfold aggregate. cbn [stds]. rewrite groupby_entry, H.
    now rewrite select_times_raw, nanstd_Fin.
  - unfold aggregate. cbn [ns]. rewrite groupby_entry, H.
    now rewrite select_times_raw, count_Fin.
  - apply (cis_entry df kv b H).
  - intros bars br Hok Hin.
    destruct (barchart_cases df) as [[_ Hb] | (b' & kv' & _ & _ & _ & Hb)];
      rewrite Hb in Hok; [| discriminate].
    injection Hok as <-.
    destruct Hin as [<- | [<- | []]]; reflexivity.
Qed.

(** C8.  A (k, bytes) group with exactly one sample does not stop the
    aggregate computation: its count is 1, its mean is a number, its
    standard deviation is NaN and so is its confidence half-width.  The
    NaN raises nothing later either: the chart is drawn whenever every
    bytes value has its two groups. *)
Theorem single_sample_group (df : dataframe) (b kv : Z) :
  length (raw_times kv b df) = 1%nat ->
  lookup key_eqb (b, kv) (ns (aggregate df)) = Some 1%nat
  /\ (exists m, lookup key_eqb (b, kv) (means (aggregate df)) = Some (Fin m))
  /\ lookup key_eqb (b, kv) (stds (aggregate df)) = Some NaN
  /\ lookup key_eqb (b, kv) (cis (aggregate df)) = Some NaN
  /\ ((forall b', In b' (map bytes df) ->
         has_samples 1 b' df = true /\ has_samples 8 b' df = true) ->
      exists bars, barchart df = Ok bars).
Proof.
  intros Hlen.
  assert (H : has_samples kv b df = true).
  { destruct (has_samples kv b df) eqn:E; [reflexivity |].
    rewrite (no_samples_raw _ _ _ E) in Hlen. discriminate. }
  destruct (raw_times kv b df) as [| x [| y xs]] eqn:Hx; try discriminate.
  repeat split.
  - unfold aggregate. cbn [ns]. rewrite groupby_entry, H.
    now rewrite select_times_raw, count_Fin, Hx.
  - unfold aggregate. cbn [means]. rewrite groupby_entry, H.
    rewrite select_times_raw, nanmean_Fin, Hx. simpl. eauto.
  - unfold aggregate. cbn [stds]. rewrite groupby_entry, H.
    now rewrite select_times_raw, nanstd_Fin, Hx.
  - rewrite (cis_entry df kv b H), Hx. reflexivity.
  - intros Hall.
    destruct (barchart_cases df) as [[_ Hb] | (b' & kv' & Hin & Hkv & Hs & _)].
    + eauto.
    + destruct (Hall b' Hin) as [H1 H8]. destruct Hkv as [-> | ->]; congruence.
Qed.

Section Contrast.
Variable ttest_ind : list fval -> list fval -> fval * fval.

(** C10, amended.  The bar-chart script raises exactly when some bytes
    value of the input has no samples for k = 1 or none for k = 8, and
    what it raises is the KeyError of such a missing pair; in particular
    it raises on every non-empty input without k = 1 records or without
    k = 8 records.  Where the statistics script shows NaN for the missing
    group, the bar-chart script draws nothing. *)
Theorem barchart_missing_group (df : dataframe) :
  ((exists e, barchart df = Raise e)
   <-> exists b, In b (map bytes df)
                 /\ (has_samples 1 b df = false \/ has_samples 8 b df = false))
  /\ (forall e, barchart df = Raise e ->
        exists b kv, e = KeyError b kv /\ In b (map bytes df)
                     /\ (kv = 1 \/ kv = 8) /\ has_samples kv b df = false)
  /\ (df <> [] ->
      (forall r, In r df -> k r <> 1) \/ (forall r, In r df -> k r <> 8) ->
      exists e, barchart df = Raise e)
  /\ (forall b, k_values df = [1; 8] -> In b (map bytes df) ->
        has_samples 1 b df = false \/ has_samples 8 b df = false ->
        (exists e, barchart df = Raise e)
        /\ exists t,
             nth_error (tables (output (statisticaltest ttest_ind df))) 0 = Some t
             /\ (has_samples 1 b df = false -> cell t b "k1" = Some NaN)
             /\ (has_samples 8 b df = false -> cell t b "k8" = Some NaN)).
Proof.
  assert (Hiff : (exists e, barchart df = Raise e)
                 <-> exists b, In b (map bytes df)
                       /\ (has_samples 1 b df = false \/ has_samples 8 b df = false)).
  { split.
    - intros [e He].
      destruct (barchart_cases df) as [[_ Hb] | (b & kv & Hin & Hkv & Hs & Hb)].
      + rewrite Hb in He. discriminate.
      + exists b. split; [exact Hin |]. destruct Hkv as [-> | ->]; auto.
    - intros (b & Hin & Hs).
      destruct (barchart_cases df) as [[Hall _] | (b' & kv & _ & _ & _ & Hb)].
      + destruct (Hall b Hin) as [H1 H8].
        destruct Hs as [Hs | Hs]; congruence.
      + eauto. }
  split; [exact Hiff |]. split; [| split].
  - intros e He.
    destruct (barchart_cases df) as [[_ Hb] | (b & kv & Hin & Hkv & Hs & Hb)].
    + rewrite Hb in He. discriminate.
    + rewrite Hb in He. injection He as <-. exists b, kv. auto.
  - intros Hne Hno. apply Hiff.
    destruct df as [| r df']; [contradiction |].
    exists (bytes r). split; [now left |].
    destruct Hno as [Hno | Hno]; [left | right];
      (destruct (has_samples _ (bytes r) (r :: df')) eqn:E; [| reflexivity]);
      apply has_samples_In, in_map_iff in E;
      destruct E as [r' [Hr' Hin']]; injection Hr' as Hk _;
      elim (Hno r' Hin' Hk).
  - intros b Hk Hb Hs. split.
    + apply Hiff. eauto.
    + exists (mean_table df 1 8).
      rewrite (statisticaltest_two ttest_ind df 1 8 Hk).
      unfold output. simpl fst. rewrite tables_report. split; [reflexivity |].
      destruct (mean_table_cells df 1 8 b Hb) as [H1 H8].
      split; intros Hn.
      * now rewrite H1, (no_samples_mean df 1 b Hn).
      * now rewrite H8, (no_samples_mean df 8 b Hn).
Qed.
End Contrast.

(** *** The theorems at sample inputs *)

(** The scenario of the specification: k1 mean 1.0, k8 mean 0.5,
    improvement 50 %, 0.5 s saved, three samples in each group. *)
Example scenario_64_bytes :
  statisticaltest ttest_none df_scenario
  = (report ttest_none df_scenario 1 8, Ok tt)
  /\ cell (mean_table df_scenario 1 8) 64 "k1" = Some (Fin 1)
  /\ cell (mean_table df_scenario 1 8) 64 "k8" = Some (Fin 0.5)
  /\ cell (improvement_table df_scenario 1 8) 64 "improvement_%" = Some (Fin 50)
  /\ cell (improvement_table df_scenario 1 8) 64 "time_saved_s" = Some (Fin 0.5)
  /\ k1_n (size_test ttest_none df_scenario 64) = 3%nat
  /\ k8_n (size_test ttest_none df_scenario 64) = 3%nat
  /\ mean_improvement (size_test ttest_none df_scenario 64) = Fin 50.
Proof.
  assert (Hin : In 64 (map bytes df_scenario)) by (simpl; auto).
  assert (H1 : group_mean df_scenario 1 64 = Fin 1).
  { unfold group_mean. simpl. f_equal. lra. }
  assert (H8 : group_mean df_scenario 8 64 = Fin 0.5).
  { unfold group_mean. simpl. f_equal. lra. }
  assert (Hi : improvement_pct (Fin 1) (Fin 0.5) = Fin 50).
  { unfold improvement_pct, fsub. cbn [fopp fadd fdiv].
    rewrite (sign_of_pos 1) by lra. cbn [fmul]. f_equal. lra. }
  destruct (mean_table_cells df_scenario 1 8 64 Hin) as [Hc1 Hc8].
  destruct (improvement_table_cells df_scenario 1 8 64 Hin) as [Hp Ht].
  rewrite Hc1, Hc8, Hp, Ht, size_test_improvement, H1, H8, Hi.
  repeat split; try reflexivity.
  - now apply statisticaltest_two.
  - unfold fsub. cbn [fopp fadd]. do 2 f_equal. lra.
Qed.

Lemma rename_is_positional_witness :
  (k_values df_k2_k4 = [2; 4]
   /\ status (statisticaltest ttest_none df_k2_k4) = Ok tt)
  /\ (status (statisticaltest ttest_none df_k1_only) = Raise (LengthMismatch 1 2)
      /\ output (statisticaltest ttest_none df_k1_only) = []).
Proof.
  split.
  - split; [reflexivity |].
    destruct (rename_is_positional ttest_none df_k2_k4) as (_ & _ & H).
    destruct (H 2 4 eq_refl) as (_ & _ & _ & _ & Hs & _). exact Hs.
  - assert (Hr : status (statisticaltest ttest_none df_k1_only)
                 = Raise (LengthMismatch 1 2)).
    { unfold statisticaltest. rewrite pivot_mean_times. reflexivity. }
    split; [exact Hr |].
    destruct (rename_is_positional ttest_none df_k1_only) as (_ & H & _).
    destruct (H _ Hr) as [Ho _]. exact Ho.
Defined.

Lemma reshape_two_levels_witness :
  k_values df_gap = [1; 8]
  /\ exists t rest,
       output (statisticaltest ttest_none df_gap)
       = Text "Mean Transfer Times:" :: Table t :: rest
       /\ columns t = ["k1"; "k8"]%string
       /\ map fst (rows t) = [64; 128]
       /\ cell t 128 "k8" = Some NaN.
Proof.
  split; [reflexivity |].
  destruct (reshape_two_levels ttest_none df_gap eq_refl)
    as (t & rest & Ho & Hc & Hr & _ & _ & Hcell).
  exists t, rest. repeat split; try assumption.
  destruct (Hcell 128) as (_ & _ & _ & _ & _ & H8); [simpl; auto |].
  apply H8. reflexivity.
Defined.

Lemma printed_means_and_counts_witness :
  k_values df_gap = [1; 8] /\ In 64 (map bytes df_gap)
  /\ exists t r,
       nth_error (tables (output (statisticaltest ttest_none df_gap))) 0 = Some t
       /\ cell t 64 "k1" = Some (arith_mean [2; 4]%R)
       /\ report_for 64 (output (statisticaltest ttest_none df_gap)) = Some r
       /\ k1_mean r = arith_mean [2; 4]%R
       /\ k1_n r = 2%nat
       /\ k8_n r = 1%nat.
Proof.
  split; [reflexivity |]. split; [simpl; auto |].
  destruct (printed_means_and_counts ttest_none df_gap 64)
    as (t & r & Ht & H1 & _ & Hr & Hm & _ & Hn1 & Hn8);
    [reflexivity | simpl; auto |].
  exists t, r. repeat split; assumption.
Defined.

Lemma cohens_d_paired_witness :
  k_values df_gap = [1; 8]
  /\ printed_cohens_d (output (statisticaltest ttest_none df_gap))
     = Some (spec_cohens_d df_gap).
Proof.
  split; [reflexivity |].
  apply (cohens_d_paired ttest_none df_gap). reflexivity.
Defined.

Lemma zero_mean_is_no_fault_witness :
  k_values df_zero = [1; 8]
  /\ status (statisticaltest ttest_none df_zero) = Ok tt
  /\ exists r,
       report_for 64 (output (statisticaltest ttest_none df_zero)) = Some r
       /\ k1_mean r = Fin 0
       /\ ~ finite (mean_improvement r).
Proof.
  split; [reflexivity |].
  destruct (zero_mean_is_no_fault ttest_none df_zero 1 8 eq_refl)
    as (Hs & _ & t1 & t2 & _ & Hb).
  split; [exact Hs |].
  destruct (Hb 64) as (_ & r & Hr & Hz); [simpl; auto |].
  assert (Hm : k1_mean r = Fin 0).
  { rewrite (statisticaltest_two ttest_none df_zero 1 8 eq_refl) in Hr.
    unfold output in Hr. cbn [fst] in Hr.
    rewrite report_for_report in Hr by (simpl; auto).
    injection Hr as <-. unfold size_test. cbn [k1_mean].
    rewrite nanmean_select. unfold group_mean. simpl. f_equal. lra. }
  exists r. repeat split; auto.
Defined.

Lemma error_bar_half_width_witness :
  has_samples 1 64 df_gap = true
  /\ lookup key_eqb (64, 1) (cis (aggregate df_gap))
     = Some (fmul (Fin 1.96) (fdiv (sample_std [2; 4]%R) (fsqrt (of_nat 2)))).
Proof.
  split; [reflexivity |].
  destruct (error_bar_half_width df_gap 64 1 eq_refl) as (_ & _ & H & _).
  exact H.
Defined.

Lemma single_sample_group_witness :
  length (raw_times 1 64 df_pair) = 1%nat
  /\ lookup key_eqb (64, 1) (stds (aggregate df_pair)) = Some NaN
  /\ lookup key_eqb (64, 1) (cis (aggregate df_pair)) = Some NaN
  /\ exists bars, barchart df_pair = Ok bars.
Proof.
  split; [reflexivity |].
  destruct (single_sample_group df_pair 64 1 eq_refl) as (_ & _ & Hs & Hc & Hd).
  repeat split; try assumption.
  apply Hd. intros b [<- | [<- | []]]; split; reflexivity.
Defined.

Lemma barchart_missing_group_witness :
  (df_k1_only <> [] /\ (forall r, In r df_k1_only -> k r <> 8)
   /\ exists e, barchart df_k1_only = Raise e)
  /\ (k_values df_gap = [1; 8] /\ In 128 (map bytes df_gap)
      /\ has_samples 8 128 df_gap = false
      /\ (exists e, barchart df_gap = Raise e)
      /\ exists t,
           nth_error (tables (output (statisticaltest ttest_none df_gap))) 0 = Some t
           /\ cell t 128 "k8" = Some NaN).
Proof.
  split.
  - assert (Hne : df_k1_only <> []) by discriminate.
    assert (Hno : forall r, In r df_k1_only -> k r <> 8).
    { intros r [<- | []]. discriminate. }
    repeat split; try assumption.
    destruct (barchart_missing_group ttest_none df_k1_only) as (_ & _ & H & _).
    apply H; [exact Hne | right; exact Hno].
  - assert (Hin : In 128 (map bytes df_gap)) by (simpl; auto).
    destruct (barchart_missing_group ttest_none df_gap) as (_ & _ & _ & H).
    destruct (H 128 eq_refl Hin (or_intror eq_refl)) as (He & t & Ht & _ & H8).
    repeat split; try assumption; try reflexivity.
    exists t. split; [exact Ht | apply H8; reflexivity].
Defined.

(** *** Where the specification and the scripts part *)

(** C1 as written fails at k values other than 1 and 8: the input has no
    k = 1 or k = 8 group, so no paired difference exists, yet a finite
    Cohen's d is printed, computed from the k = 2 and k = 4 groups. *)
Lemma cohens_d_other_levels :
  spec_cohens_d df_k2_k4 = NaN
  /\ printed_cohens_d (output (statisticaltest ttest_none df_k2_k4))
     = Some (Fin (2 / sqrt 2))
  /\ printed_cohens_d (output (statisticaltest ttest_none df_k2_k4))
     <> Some (spec_cohens_d df_k2_k4).
Proof.
  assert (Hs : spec_cohens_d df_k2_k4 = NaN) by reflexivity.
  assert (Hd : printed_cohens_d (output (statisticaltest ttest_none df_k2_k4))
               = Some (Fin (2 / sqrt 2))).
  { rewrite (statisticaltest_two ttest_none df_k2_k4 2 4 eq_refl).
    unfold output. simpl fst. rewrite cohens_d_report.
    unfold column_differences.
    rewrite (nanmean_finite_part _ _ (differences_finite_part df_k2_k4 2 4 _)).
    rewrite (nanstd_finite_part _ _ (differences_finite_part df_k2_k4 2 4 _)).
    simpl.
    match goal with |- context [sqrt ?v] => replace v with 2%R by lra end.
    rewrite (sign_of_pos (sqrt 2)) by (apply sqrt_lt_R0; lra).
    do 2 f_equal. lra. }
  split; [exact Hs |]. split; [exact Hd |].
  rewrite Hd, Hs. discriminate.
Qed.

(** C2 as written fails: the k = 1 mean of the input is exactly zero, and
    the report still runs to its end with all nine items printed; the
    improvement percentage is minus infinity, in the table and in the
    loop. *)
Lemma zero_mean_report_completes :
  statisticaltest ttest_none df_zero = (report ttest_none df_zero 1 8, Ok tt)
  /\ length (output (statisticaltest ttest_none df_zero)) = 9%nat
  /\ cell (mean_table df_zero 1 8) 64 "k1" = Some (Fin 0)
  /\ cell (improvement_table df_zero 1 8) 64 "improvement_%" = Some NInf
  /\ exists r,
       report_for 64 (output (statisticaltest ttest_none df_zero)) = Some r
       /\ k1_mean r = Fin 0
       /\ mean_improvement r = NInf.
Proof.
  assert (Hrun := statisticaltest_two ttest_none df_zero 1 8 eq_refl).
  assert (Hin : In 64 (map bytes df_zero)) by (simpl; auto).
  assert (H1 : group_mean df_zero 1 64 = Fin 0).
  { unfold group_mean. simpl. f_equal. lra. }
  assert (H8 : group_mean df_zero 8 64 = Fin 1).
  { unfold group_mean. simpl. f_equal. lra. }
  assert (Hi : improvement_pct (Fin 0) (Fin 1) = NInf).
  { unfold improvement_pct. simpl. decide_signs. simpl. now decide_signs. }
  split; [exact Hrun |]. rewrite Hrun. split; [reflexivity |].
  destruct (mean_table_cells df_zero 1 8 64 Hin) as [Hc _].
  destruct (improvement_table_cells df_zero 1 8 64 Hin) as [Hp _].
  split; [now rewrite Hc, H1 |].
  split; [now rewrite Hp, H1, H8, Hi |].
  exists (size_test ttest_none df_zero 64). unfold output. cbn [fst].
  split; [now apply report_for_report |]. split.
  - unfold size_test. cbn [k1_mean]. now rewrite nanmean_select.
  - now rewrite size_test_improvement, H1, H8.
Qed.

(** C3 as written fails: every record of the input has k = 1, so the
    records use only the k values 1 and 8, and the renaming of the single
    pivot column raises before any table is printed. *)
Lemma reshape_k1_only_raises :
  (forall r, In r df_k1_only -> k r = 1 \/ k r = 8)
  /\ statisticaltest ttest_none df_k1_only = ([], Raise (LengthMismatch 1 2))
  /\ tables (output (statisticaltest ttest_none df_k1_only)) = [].
Proof.
  assert (Hrun : statisticaltest ttest_none df_k1_only
                 = ([], Raise (LengthMismatch 1 2))).
  { rewrite statisticaltest_other; [reflexivity | discriminate]. }
  split; [| split; [exact Hrun | now rewrite Hrun]].
  intros r [<- | []]. now left.
Qed.

(** C4 as written fails at k values other than 1 and 8: the column
    labelled k1 prints the mean of the k = 2 records, 1.0, while the input
    has no record with k = 1 and 64 bytes to take a mean of. *)
Lemma printed_means_other_levels :
  nth_error (tables (output (statisticaltest ttest_none df_k2_k4))) 0
  = Some (mean_table df_k2_k4 2 4)
  /\ cell (mean_table df_k2_k4 2 4) 64 "k1" = Some (Fin 1)
  /\ raw_times 1 64 df_k2_k4 = []
  /\ cell (mean_table df_k2_k4 2 4) 64 "k1"
     <> Some (arith_mean (raw_times 1 64 df_k2_k4)).
Proof.
  assert (Hrun := statisticaltest_two ttest_none df_k2_k4 2 4 eq_refl).
  assert (Hin : In 64 (map bytes df_k2_k4)) by (simpl; auto).
  destruct (mean_table_cells df_k2_k4 2 4 64 Hin) as [Hc _].
  assert (H2 : group_mean df_k2_k4 2 64 = Fin 1).
  { unfold group_mean. simpl. f_equal. lra. }
  rewrite Hrun. unfold output. cbn [fst]. rewrite tables_report, Hc, H2.
  repeat split; try reflexivity. discriminate.
Qed.

(** C5 as written fails: with measurements at k = 1 and k = 4 the table
    computes the improvement from the k = 4 column, a number, while the
    loop finds no k = 8 samples and prints NaN. *)
Lemma improvement_differs_k1_k4 :
  exists r,
    cell (improvement_table df_k1_k4 1 4) 64 "improvement_%" = Some (Fin 50)
    /\ nth_error (tables (output (statisticaltest ttest_none df_k1_k4))) 1
       = Some (improvement_table df_k1_k4 1 4)
    /\ report_for 64 (output (statisticaltest ttest_none df_k1_k4)) = Some r
    /\ mean_improvement r = NaN.
Proof.
  assert (Hrun := statisticaltest_two ttest_none df_k1_k4 1 4 eq_refl).
  assert (Hin : In 64 (map bytes df_k1_k4)) by (simpl; auto).
  destruct (improvement_table_cells df_k1_k4 1 4 64 Hin) as [Hp _].
  assert (Hx : improvement_pct (group_mean df_k1_k4 1 64)
                               (group_mean df_k1_k4 4 64) = Fin 50).
  { unfold improvement_pct, group_mean. simpl. decide_signs.
    simpl. f_equal. lra. }
  exists (size_test ttest_none df_k1_k4 64).
  rewrite Hrun. unfold output. cbn [fst]. rewrite tables_report.
  split; [now rewrite Hp, Hx |]. split; [reflexivity |].
  split; [now apply report_for_report |].
  rewrite size_test_improvement. reflexivity.
Qed.

(** C10 as written fails at the empty table: it has no k = 1 record and
    no k = 8 record, and both (empty) groups of bars are drawn. *)
Lemma barchart_empty_draws :
  (forall r, In r (@nil record) -> k r <> 1)
  /\ barchart [] = Ok [mkBar 0 1 [] []; mkBar 1 8 [] []].
Proof. split; [intros r [] | reflexivity]. Qed.

(** ** Part 3. Further properties of the two scripts *)

(** *** Means and their range *)

Lemma Rsum_range (lo hi : R) (xs : list R) :
  (forall x, In x xs -> (lo <= x <= hi)%R) ->
  (INR (length xs) * lo <= Rsum xs <= INR (length xs) * hi)%R.
Proof.
  induction xs as [| x xs IH]; intros H.
  - simpl. lra.
  - change (length (x :: xs)) with (S (length xs)). rewrite S_INR.
    cbn [Rsum fold_right].
    assert (Hx : (lo <= x <= hi)%R) by (apply H; now left).
    assert (Hxs : (INR (length xs) * lo <= Rsum xs <= INR (length xs) * hi)%R).
    { apply IH. intros y Hy. apply H. now right. }
    unfold Rsum in Hxs. lra.
Qed.

Lemma arith_mean_range (lo hi : R) (xs : list R) :
  xs <> [] -> (forall x, In x xs -> (lo <= x <= hi)%R) ->
  exists m, arith_mean xs = Fin m /\ (lo <= m <= hi)%R.
Proof.
  intros Hne H. destruct xs as [| x xs]; [contradiction |].
  eexists. split; [reflexivity |].
  remember (x :: xs) as l eqn:El.
  assert (Hn : (0 < INR (length l))%R) by (apply INR_pos; subst l; simpl; lia).
  destruct (Rsum_range lo hi l H) as [H1 H2].
  split.
  - apply Rmult_le_reg_l with (INR (length l)); [exact Hn |].
    replace (INR (length l) * (Rsum l / INR (length l)))%R with (Rsum l)
      by (field; lra).
    exact H1.
  - apply Rmult_le_reg_l with (INR (length l)); [exact Hn |].
    replace (INR (length l) * (Rsum l / INR (length l)))%R with (Rsum l)
      by (field; lra).
    exact H2.
Qed.

Lemma raw_times_In (kv b : Z) (df : dataframe) (x : R) :
  In x (raw_times kv b df) <->
  exists r, In r df /\ k r = kv /\ bytes r = b /\ time r = x.
Proof.
  unfold raw_times. rewrite in_map_iff. split.
  - intros [r [Hx Hr]]. apply filter_In in Hr. destruct Hr as [Hr Hc].
    apply andb_true_iff in Hc. rewrite !Z.eqb_eq in Hc. exists r. tauto.
  - intros [r (Hr & Hk & Hb & Hx)]. exists r. split; [exact Hx |].
    apply filter_In. split; [exact Hr |].
    now rewrite Hk, Hb, !Z.eqb_refl.
Qed.

Lemma has_samples_nonempty (kv b : Z) (df : dataframe) :
  has_samples kv b df = true -> raw_times kv b df <> [].
Proof.
  intros H E. apply has_samples_raw in H. rewrite E in H. simpl in H. lia.
Qed.

(** X1.  In exact arithmetic the height of a bar lies within the range of
    the samples of its group: between the smallest and the largest time
    measured for that (bytes, k) pair.  The rounding of float64, which
    can put the computed mean an ulp outside, is not part of the
    statement. *)
Theorem mean_within_sample_range (df : dataframe) (b kv : Z) (lo hi : R) :
  has_samples kv b df = true ->
  (forall r, In r df -> k r = kv -> bytes r = b -> (lo <= time r <= hi)%R) ->
  exists m, lookup key_eqb (b, kv) (means (aggregate df)) = Some (Fin m)
            /\ (lo <= m <= hi)%R.
Proof.
  intros Hs Hr.
  destruct (arith_mean_range lo hi (raw_times kv b df)) as [m [Hm Hb]].
  - now apply has_samples_nonempty.
  - intros x Hx. apply raw_times_In in Hx.
    destruct Hx as [r (Hin & Hk & Hbb & <-)]. now apply Hr.
  - exists m. split; [| exact Hb].
    unfold aggregate. cbn [means]. rewrite groupby_entry, Hs.
    rewrite nanmean_select. unfold group_mean. now rewrite Hm.
Qed.

Lemma mean_within_sample_range_witness :
  has_samples 1 64 df_gap = true
  /\ exists m, lookup key_eqb (64, 1) (means (aggregate df_gap)) = Some (Fin m)
               /\ (2 <= m <= 4)%R.
Proof.
  split; [reflexivity |].
  apply (mean_within_sample_range df_gap 64 1 2 4); [reflexivity |].
  intros r [<- | [<- | [<- | [<- | []]]]]; simpl; intros; try discriminate; lra.
Defined.

(** *** Improvement percentage *)

Lemma improvement_pct_pos (a b : R) :
  (0 < a)%R -> improvement_pct (Fin a) (Fin b) = Fin ((a - b) / a * 100).
Proof.
  intros Ha. unfold improvement_pct, fsub. cbn [fopp fadd fdiv].
  rewrite (sign_of_pos a Ha). reflexivity.
Qed.

Lemma Rsum_nonneg (xs : list R) :
  (forall x, In x xs -> (0 <= x)%R) -> (0 <= Rsum xs)%R.
Proof.
  induction xs as [| x xs IH]; intros H; cbn [Rsum fold_right]; [lra |].
  assert (Hx : (0 <= x)%R) by (apply H; now left).
  assert (Hxs : (0 <= Rsum xs)%R) by (apply IH; intros y Hy; apply H; now right).
  unfold Rsum in Hxs. lra.
Qed.

(** With times that are not negative a group mean is NaN (no samples) or
    a number that is not negative. *)
Lemma group_mean_nonneg (df : dataframe) (kv b : Z) :
  (forall r, In r df -> (0 <= time r)%R) ->
  group_mean df kv b = NaN
  \/ exists m, group_mean df kv b = Fin m /\ (0 <= m)%R.
Proof.
  intros Hpos. unfold group_mean, arith_mean.
  destruct (raw_times kv b df) as [| x xs] eqn:E; [now left |].
  right. eexists. split; [reflexivity |]. rewrite <- E.
  apply Rmult_le_pos.
  - apply Rsum_nonneg. intros y Hy. apply raw_times_In in Hy.
    destruct Hy as [r (Hin & _ & _ & <-)]. auto.
  - apply Rlt_le, Rinv_0_lt_compat, INR_pos. rewrite E. simpl. lia.
Qed.

Lemma improvement_at_most_100 (a b : fval) :
  (a = NaN \/ exists m, a = Fin m /\ (0 <= m)%R) ->
  (b = NaN \/ exists m, b = Fin m /\ (0 <= m)%R) ->
  at_most_100 (improvement_pct a b).
Proof.
  intros [-> | [ma [-> Ha]]] Hb; [exact I |].
  destruct Hb as [-> | [mb [-> Hb]]]; [exact I |].
  destruct (Rle_lt_or_eq_dec 0 ma Ha) as [Hpos | <-].
  - rewrite (improvement_pct_pos ma mb Hpos). unfold at_most_100.
    assert (H : ((ma - mb) / ma <= 1)%R).
    { apply Rmult_le_reg_r with ma; [exact Hpos |].
      replace ((ma - mb) / ma * ma)%R with (ma - mb)%R by (field; lra). lra. }
    lra.
  - unfold improvement_pct, fsub. cbn [fopp fadd fdiv].
    rewrite (sign_of_zero 0) by reflexivity.
    assert (H100 : sign_of 100 = Pos) by (apply sign_of_pos; lra).
    destruct (Rle_lt_or_eq_dec 0 mb Hb) as [Hp | <-].
    + rewrite (sign_of_neg (0 + - mb)) by lra. cbn [inf_of_sign fmul].
      rewrite H100. exact I.
    + rewrite (sign_of_zero (0 + - 0)) by lra. exact I.
Qed.

Section ImprovementFacts.
Variable ttest_ind : list fval -> list fval -> fval * fval.

(** X2.  Where both group means are numbers and the k1 mean is positive,
    the comparison table holds time_saved_s = k1 - k8 and
    improvement_% = time_saved_s / k1 * 100, and the improvement is
    positive exactly when the k8 mean is the smaller one, negative
    exactly when it is the larger one. *)
Theorem improvement_sign (df : dataframe) (ka kb b : Z) (ma mb : R) :
  k_values df = [ka; kb] -> In b (map bytes df) ->
  arith_mean (raw_times ka b df) = Fin ma ->
  arith_mean (raw_times kb b df) = Fin mb ->
  (0 < ma)%R ->
  exists t s p,
    nth_error (tables (output (statisticaltest ttest_ind df))) 1 = Some t
    /\ cell t b "time_saved_s" = Some (Fin s)
    /\ cell t b "improvement_%" = Some (Fin p)
    /\ s = (ma - mb)%R
    /\ p = (s / ma * 100)%R
    /\ ((0 < p)%R <-> (mb < ma)%R)
    /\ ((p < 0)%R <-> (ma < mb)%R).
Proof.
  intros Hk Hb Ha Hbm Hpos.
  exists (improvement_table df ka kb), (ma - mb)%R, ((ma - mb) / ma * 100)%R.
  rewrite (statisticaltest_two ttest_ind df ka kb Hk).
  unfold output. cbn [fst]. rewrite tables_report.
  destruct (improvement_table_cells df ka kb b Hb) as [Hp Hs].
  unfold group_mean in Hp, Hs. rewrite Ha, Hbm in Hp, Hs.
  rewrite (improvement_pct_pos ma mb Hpos) in Hp.
  assert (Hq : forall d : R, ((0 < d / ma * 100)%R <-> (0 < d)%R)
                             /\ ((d / ma * 100 < 0)%R <-> (d < 0)%R)).
  { intros d.
    assert (Hi : (0 < / ma)%R) by now apply Rinv_0_lt_compat.
    unfold Rdiv. split; split; intros H; nra. }
  destruct (Hq (ma - mb)%R) as [Hq1 Hq2].
  repeat split; try assumption; try reflexivity.
  - intros H. apply Hq1 in H. lra.
  - intros H. apply Hq1. lra.
  - intros H. apply Hq2 in H. lra.
  - intros H. apply Hq2. lra.
Qed.

(** X3.  When every time in the input is positive, no improvement
    percentage is above 100: in the comparison table and in the per-size
    loop it is a number up to 100, minus infinity or NaN, never plus
    infinity. *)
Theorem improvement_never_above_100 (df : dataframe) (ka kb b : Z) :
  (forall r, In r df -> (0 < time r)%R) ->
  k_values df = [ka; kb] -> In b (map bytes df) ->
  exists t v r,
    nth_error (tables (output (statisticaltest ttest_ind df))) 1 = Some t
    /\ cell t b "improvement_%" = Some v
    /\ at_most_100 v
    /\ report_for b (output (statisticaltest ttest_ind df)) = Some r
    /\ at_most_100 (mean_improvement r).
Proof.
  intros Hpos Hk Hb.
  assert (Hnn : forall r, In r df -> (0 <= time r)%R)
    by (intros r Hr; apply Rlt_le; auto).
  exists (improvement_table df ka kb).
  exists (improvement_pct (group_mean df ka b) (group_mean df kb b)).
  exists (size_test ttest_ind df b).
  rewrite (statisticaltest_two ttest_ind df ka kb Hk).
  unfold output. cbn [fst]. rewrite tables_report.
  destruct (improvement_table_cells df ka kb b Hb) as [Hp _].
  repeat split.
  - exact Hp.
  - apply improvement_at_most_100; now apply group_mean_nonneg.
  - now apply report_for_report.
  - rewrite size_test_improvement.
    apply improvement_at_most_100; now apply group_mean_nonneg.
Qed.
End ImprovementFacts.

Lemma improvement_sign_witness :
  k_values df_pair = [1; 8]
  /\ exists t s p,
       nth_error (tables (output (statisticaltest ttest_none df_pair))) 1 = Some t
       /\ cell t 64 "time_saved_s" = Some (Fin s)
       /\ cell t 64 "improvement_%" = Some (Fin p)
       /\ s = (2 - 1)%R
       /\ (0 < p)%R.
Proof.
  split; [reflexivity |].
  destruct (improvement_sign ttest_none df_pair 1 8 64 2 1)
    as (t & s & p & Ht & Hs & Hp & Es & Ep & Hpos & _).
  - reflexivity.
  - simpl; auto.
  - unfold arith_mean, raw_times. simpl. f_equal. lra.
  - unfold arith_mean, raw_times. simpl. f_equal. lra.
  - lra.
  - exists t, s, p. repeat split; try assumption. apply Hpos. lra.
Defined.

Lemma improvement_never_above_100_witness :
  (forall r, In r df_pair -> (0 < time r)%R)
  /\ exists t v,
       nth_error (tables (output (statisticaltest ttest_none df_pair))) 1 = Some t
       /\ cell t 64 "improvement_%" = Some v
       /\ at_most_100 v.
Proof.
  assert (Hpos : forall r, In r df_pair -> (0 < time r)%R).
  { intros r [<- | [<- | []]]; simpl; lra. }
  split; [exact Hpos |].
  destruct (improvement_never_above_100 ttest_none df_pair 1 8 64 Hpos eq_refl)
    as (t & v & r & Ht & Hv & Hle & _); [simpl; auto |].
  exists t, v. auto.
Defined.

(** *** The per-size loop *)

Lemma increasing_strict (l : list Z) :
  StronglySorted Z.le l -> NoDup l -> StronglySorted Z.lt l.
Proof.
  induction 1 as [| x l Hs IH Hf]; intros Hn; constructor.
  - apply IH. now inversion Hn.
  - inversion Hn as [| ? ? Hx _]; subst.
    rewrite Forall_forall in *. intros y Hy.
    assert (x <> y) by (intros ->; contradiction).
    specialize (Hf y Hy). lia.
Qed.

Lemma byte_values_increasing (df : dataframe) :
  StronglySorted Z.lt (byte_values df).
Proof.
  apply increasing_strict; [apply sorted_Z_sorted |].
  apply (distinct_NoDup _ Z.eqb_eq).
Qed.

Lemma select_times_local (kv b : Z) (df : dataframe) :
  select_times kv b (rows_of_size b df) = select_times kv b df.
Proof.
  unfold select_times, rows_of_size. f_equal.
  induction df as [| r df IH]; [reflexivity |].
  cbn [filter]. destruct (bytes r =? b) eqn:Eb.
  - cbn [filter]. rewrite Eb, IH. reflexivity.
  - rewrite andb_false_r. exact IH.
Qed.

Section LoopFacts.
Variable ttest_ind : list fval -> list fval -> fval * fval.


(** X5.  What is printed for one message size depends on the rows of that
    size only: the report of the loop, the t-test included, and the two
    means of the pivot table are those of the input cut down to these
    rows. *)
Theorem size_report_is_local (df : dataframe) (ka kb b : Z) :
  k_values df = [ka; kb] -> In b (map bytes df) ->
  report_for b (output (statisticaltest ttest_ind df))
  = Some (size_test ttest_ind (rows_of_size b df) b)
  /\ exists t,
       nth_error (tables (output (statisticaltest ttest_ind df))) 0 = Some t
       /\ cell t b "k1" = Some (nanmean (select_times ka b (rows_of_size b df)))
       /\ cell t b "k8" = Some (nanmean (select_times kb b (rows_of_size b df))).
Proof.
  intros Hk Hb. rewrite (statisticaltest_two ttest_ind df ka kb Hk).
  unfold output. cbn [fst]. split.
  - rewrite (report_for_report ttest_ind df ka kb b Hb).
    unfold size_test. now rewrite !select_times_local.
  - exists (mean_table df ka kb). rewrite tables_report.
    destruct (mean_table_cells df ka kb b Hb) as [H1 H8].
    rewrite !select_times_local, !nanmean_select. auto.
Qed.
End LoopFacts.


Lemma size_report_is_local_witness :
  k_values df_gap = [1; 8] /\ In 64 (map bytes df_gap)
  /\ report_for 64 (output (statisticaltest ttest_none df_gap))
     = Some (size_test ttest_none (rows_of_size 64 df_gap) 64).
Proof.
  split; [reflexivity |]. split; [simpl; auto |].
  apply (size_report_is_local ttest_none df_gap 1 8 64); [reflexivity | simpl; auto].
Defined.

(** *** Effect size: the degenerate cases *)

Lemma fdiv_NaN_r (x : fval) : fdiv x NaN = NaN.
Proof. now destruct x. Qed.

Lemma sample_std_short (xs : list R) :
  (length xs < 2)%nat -> sample_std xs = NaN.
Proof.
  destruct xs as [| x [| y xs]]; simpl; intros H; try reflexivity; lia.
Qed.

Lemma Rsum_const (c : R) (xs : list R) :
  (forall x, In x xs -> x = c) -> Rsum xs = (INR (length xs) * c)%R.
Proof.
  induction xs as [| x xs IH]; intros H.
  - simpl. lra.
  - change (length (x :: xs)) with (S (length xs)). rewrite S_INR.
    cbn [Rsum fold_right].
    assert (Hx : x = c) by (apply H; now left).
    assert (Hxs : Rsum xs = (INR (length xs) * c)%R)
      by (apply IH; intros y Hy; apply H; now right).
    unfold Rsum in Hxs. rewrite Hxs, Hx. lra.
Qed.

Lemma Rsum_sq_const (m : R) (xs : list R) :
  (forall x, In x xs -> x = m) ->
  Rsum (map (fun x => ((x - m) * (x - m))%R) xs) = 0%R.
Proof.
  induction xs as [| x xs IH]; intros H; [reflexivity |].
  cbn [map Rsum fold_right].
  assert (Hx : x = m) by (apply H; now left).
  assert (Hxs : Rsum (map (fun x => ((x - m) * (x - m))%R) xs) = 0%R)
    by (apply IH; intros y Hy; apply H; now right).
  unfold Rsum in Hxs. rewrite Hxs, Hx. lra.
Qed.

Lemma mean_const (c : R) (xs : list R) :
  xs <> [] -> (forall x, In x xs -> x = c) ->
  (Rsum xs / INR (length xs))%R = c.
Proof.
  intros Hne H. rewrite (Rsum_const c xs H).
  assert (Hn : (0 < INR (length xs))%R).
  { apply INR_pos. destruct xs; [contradiction | simpl; lia]. }
  field. lra.
Qed.

(** The standard deviation of two or more equal values is zero. *)
Lemma sample_std_const (c : R) (xs : list R) :
  (2 <= length xs)%nat -> (forall x, In x xs -> x = c) ->
  sample_std xs = Fin 0.
Proof.
  intros Hn H.
  assert (Hm : (Rsum xs / INR (length xs))%R = c).
  { apply mean_const; [| exact H]. intros ->. simpl in Hn. lia. }
  destruct xs as [| x [| y xs]]; try (simpl in Hn; lia).
  unfold sample_std. remember (x :: y :: xs) as l eqn:El.
  cbv zeta. rewrite Hm, (Rsum_sq_const c l H).
  f_equal. unfold Rdiv. rewrite Rmult_0_l. apply sqrt_0.
Qed.

Section EffectSizeFacts.
Variable ttest_ind : list fval -> list fval -> fval * fval.

Lemma cohens_d_closed (df : dataframe) (ka kb : Z) :
  k_values df = [ka; kb] ->
  printed_cohens_d (output (statisticaltest ttest_ind df))
  = Some (fdiv (arith_mean (map (mean_difference df ka kb) (paired_sizes df ka kb)))
               (sample_std (map (mean_difference df ka kb) (paired_sizes df ka kb)))).
Proof.
  intros Hk. rewrite (statisticaltest_two ttest_ind df ka kb Hk).
  unfold output. cbn [fst]. rewrite cohens_d_report.
  unfold column_differences.
  rewrite (nanmean_finite_part _ _ (differences_finite_part df ka kb _)).
  rewrite (nanstd_finite_part _ _ (differences_finite_part df ka kb _)).
  reflexivity.
Qed.

(** X6.  Cohen's d needs two message sizes: when fewer than two bytes
    values have samples at both k levels, the standard deviation of the
    differences is undefined and the value printed is NaN. *)
Theorem cohens_d_needs_two_sizes (df : dataframe) (ka kb : Z) :
  k_values df = [ka; kb] ->
  (length (paired_sizes df ka kb) < 2)%nat ->
  printed_cohens_d (output (statisticaltest ttest_ind df)) = Some NaN.
Proof.
  intros Hk Hn. rewrite (cohens_d_closed df ka kb Hk).
  rewrite (sample_std_short (map _ _)) by now rewrite length_map.
  now rewrite fdiv_NaN_r.
Qed.

(** X7.  In exact arithmetic: when two or more bytes values have samples
    at both k levels and the difference of the two means is the same
    number [c] at each of them, the standard deviation is zero and the
    division gives plus infinity for a positive [c], minus infinity for a
    negative one and NaN for zero.  In float64 the differences of rounded
    means are seldom equal to the last bit; the deviation left over is
    tiny and the quotient printed is then a very large number. *)
Theorem cohens_d_constant_difference (df : dataframe) (ka kb : Z) (c : R) :
  k_values df = [ka; kb] ->
  (2 <= length (paired_sizes df ka kb))%nat ->
  (forall b, In b (paired_sizes df ka kb) -> mean_difference df ka kb b = c) ->
  printed_cohens_d (output (statisticaltest ttest_ind df))
  = Some (inf_of_sign (sign_of c)).
Proof.
  intros Hk Hn Hc. rewrite (cohens_d_closed df ka kb Hk).
  set (xs := map (mean_difference df ka kb) (paired_sizes df ka kb)).
  assert (Hlen : (2 <= length xs)%nat) by (unfold xs; now rewrite length_map).
  assert (Hall : forall x, In x xs -> x = c).
  { intros x Hx. apply in_map_iff in Hx. destruct Hx as [b [<- Hb]]. auto. }
  rewrite (sample_std_const c xs Hlen Hall).
  assert (Hne : xs <> []) by (intros E; rewrite E in Hlen; simpl in Hlen; lia).
  unfold arith_mean. destruct xs as [| x l] eqn:E; [contradiction |].
  rewrite (mean_const c (x :: l) Hne Hall).
  unfold fdiv. now rewrite (sign_of_zero 0).
Qed.
End EffectSizeFacts.

Lemma cohens_d_needs_two_sizes_witness :
  k_values df_gap = [1; 8]
  /\ (length (paired_sizes df_gap 1 8) < 2)%nat
  /\ printed_cohens_d (output (statisticaltest ttest_none df_gap)) = Some NaN.
Proof.
  split; [reflexivity |]. split; [simpl; lia |].
  apply (cohens_d_needs_two_sizes ttest_none df_gap 1 8); [reflexivity | simpl; lia].
Defined.

Lemma cohens_d_constant_difference_witness :
  k_values df_steady = [1; 8]
  /\ (2 <= length (paired_sizes df_steady 1 8))%nat
  /\ printed_cohens_d (output (statisticaltest ttest_none df_steady)) = Some PInf.
Proof.
  split; [reflexivity |]. split; [simpl; lia |].
  change PInf with (inf_of_sign Pos). rewrite <- (sign_of_pos 1) by lra.
  apply (cohens_d_constant_difference ttest_none df_steady 1 8 1);
    [reflexivity | simpl; lia |].
  intros b [<- | [<- | []]]; unfold mean_difference; simpl; lra.
Defined.

(** *** The order of the rows *)

Lemma Rsum_perm (xs ys : list R) : Permutation xs ys -> Rsum xs = Rsum ys.
Proof.
  induction 1 as [| x l l' _ IH | x y l | l l' l'' _ IH1 _ IH2].
  - reflexivity.
  - cbn [Rsum fold_right]. unfold Rsum in IH. now rewrite IH.
  - cbn [Rsum fold_right]. lra.
  - now rewrite IH1.
Qed.

Lemma filter_perm {A : Type} (f : A -> bool) (l l' : list A) :
  Permutation l l' -> Permutation (filter f l) (filter f l').
Proof.
  induction 1 as [| x l l' _ IH | x y l | l l' l'' _ IH1 _ IH2]; cbn [filter].
  - constructor.
  - destruct (f x); [now constructor | exact IH].
  - destruct (f x), (f y); try reflexivity. apply perm_swap.
  - now transitivity (filter f l').
Qed.

Lemma raw_times_perm (kv b : Z) (df df' : dataframe) :
  Permutation df df' -> Permutation (raw_times kv b df) (raw_times kv b df').
Proof. intros H. unfold raw_times. now apply Permutation_map, filter_perm. Qed.

Lemma arith_mean_perm (xs ys : list R) :
  Permutation xs ys -> arith_mean xs = arith_mean ys.
Proof.
  intros H. unfold arith_mean.
  rewrite (Rsum_perm xs ys H), (Permutation_length H).
  destruct xs as [| x xs], ys as [| y ys]; try reflexivity.
  - apply Permutation_nil in H. discriminate.
  - apply Permutation_sym, Permutation_nil in H. discriminate.
Qed.

Lemma sample_std_perm (xs ys : list R) :
  Permutation xs ys -> sample_std xs = sample_std ys.
Proof.
  intros H. pose proof (Permutation_length H) as Hl.
  pose proof (Rsum_perm xs ys H) as Hs.
  assert (Hq : Rsum (map (fun x => ((x - Rsum xs / INR (length xs))
                                    * (x - Rsum xs / INR (length xs)))%R) xs)
               = Rsum (map (fun x => ((x - Rsum ys / INR (length ys))
                                      * (x - Rsum ys / INR (length ys)))%R) ys)).
  { rewrite Hs, Hl. apply Rsum_perm. now apply Permutation_map. }
  destruct xs as [| x [| x' xs]], ys as [| y [| y' ys]];
    try discriminate; try reflexivity.
  unfold sample_std. cbv zeta. now rewrite Hq, Hl.
Qed.

Lemma has_samples_perm (kv b : Z) (df df' : dataframe) :
  Permutation df df' -> has_samples kv b df = has_samples kv b df'.
Proof.
  intros H.
  destruct (has_samples kv b df) eqn:E, (has_samples kv b df') eqn:E';
    try reflexivity.
  - apply has_samples_In in E. rewrite <- E'. symmetry. apply has_samples_In.
    eapply Permutation_in; [apply Permutation_map; exact H | exact E].
  - apply has_samples_In in E'. rewrite <- E. apply has_samples_In.
    eapply Permutation_in;
      [apply Permutation_map, Permutation_sym; exact H | exact E'].
Qed.

Lemma byte_values_perm (df df' : dataframe) :
  Permutation df df' -> byte_values df = byte_values df'.
Proof.
  intros H. apply distinct_Z_ext. intros x.
  split; apply Permutation_in; [| apply Permutation_sym];
    now apply Permutation_map.
Qed.

Lemma k_values_perm (df df' : dataframe) :
  Permutation df df' -> k_values df = k_values df'.
Proof.
  intros H. apply distinct_Z_ext. intros x.
  split; apply Permutation_in; [| apply Permutation_sym];
    now apply Permutation_map.
Qed.

Lemma group_mean_perm (kv b : Z) (df df' : dataframe) :
  Permutation df df' -> group_mean df kv b = group_mean df' kv b.
Proof. intros H. unfold group_mean. now apply arith_mean_perm, raw_times_perm. Qed.

Lemma half_width_perm (xs ys : list R) :
  Permutation xs ys -> half_width xs = half_width ys.
Proof.
  intros H. unfold half_width.
  now rewrite (sample_std_perm xs ys H), (Permutation_length H).
Qed.

Lemma rmap_list_ext {A B : Type} (f g : A -> result B) (l : list A) :
  (forall x, f x = g x) -> rmap_list f l = rmap_list g l.
Proof.
  intros H. induction l as [| x l IH]; [reflexivity |].
  cbn [rmap_list]. now rewrite H, IH.
Qed.

Lemma draw_bars_perm (df df' : dataframe) (bs : list Z) (i : nat) (kv : Z) :
  Permutation df df' ->
  draw_bars (aggregate df) bs i kv = draw_bars (aggregate df') bs i kv.
Proof.
  intros H. unfold draw_bars.
  rewrite (rmap_list_ext (fun b => at_key (means (aggregate df)) b kv)
                         (fun b => at_key (means (aggregate df')) b kv)).
  2:{ intros b. rewrite !at_key_means.
      now rewrite (has_samples_perm kv b df df' H), (group_mean_perm kv b df df' H). }
  rewrite (rmap_list_ext (fun b => at_key (cis (aggregate df)) b kv)
                         (fun b => at_key (cis (aggregate df')) b kv)).
  2:{ intros b. rewrite !at_key_cis.
      now rewrite (has_samples_perm kv b df df' H),
                  (half_width_perm _ _ (raw_times_perm kv b df df' H)). }
  reflexivity.
Qed.

(** X8.  The chart does not depend on the order of the rows of the table:
    two inputs with the same rows in another order give the same bars, or
    the same KeyError. *)
Theorem barchart_row_order (df df' : dataframe) :
  Permutation df df' -> barchart df = barchart df'.
Proof.
  intros H. unfold barchart. cbn [rmap_list fst snd].
  fold (byte_values df). fold (byte_values df').
  rewrite <- (byte_values_perm df df' H).
  now rewrite !(draw_bars_perm df df' _ _ _ H).
Qed.

Lemma barchart_row_order_witness :
  Permutation df_pair (rev df_pair) /\ barchart df_pair = barchart (rev df_pair).
Proof.
  split; [apply Permutation_rev |].
  apply (barchart_row_order df_pair (rev df_pair)). apply Permutation_rev.
Defined.

Section RowOrder.
Variable ttest_ind : list fval -> list fval -> fval * fval.

(** X9.  In the statistics script the order of the rows decides the order
    of the per-size reports and nothing else: with the same rows in
    another order the run ends the same way, prints the same two tables
    and the same Cohen's d, and reports on the same bytes values. *)
Theorem tables_row_order (df df' : dataframe) :
  Permutation df df' ->
  status (statisticaltest ttest_ind df) = status (statisticaltest ttest_ind df')
  /\ tables (output (statisticaltest ttest_ind df))
     = tables (output (statisticaltest ttest_ind df'))
  /\ printed_cohens_d (output (statisticaltest ttest_ind df))
     = printed_cohens_d (output (statisticaltest ttest_ind df'))
  /\ Permutation
       (map msg_size (size_reports (output (statisticaltest ttest_ind df))))
       (map msg_size (size_reports (output (statisticaltest ttest_ind df')))).
Proof.
  intros H. pose proof (k_values_perm df df' H) as Hk.
  destruct (Nat.eq_dec (length (k_values df)) 2) as [E | E].
  - destruct (k_values df) as [| ka [| kb [| ? ?]]] eqn:Hka; try discriminate.
    symmetry in Hk.
    rewrite (statisticaltest_two ttest_ind df ka kb Hka).
    rewrite (statisticaltest_two ttest_ind df' ka kb Hk).
    unfold status, output. cbn [fst snd].
    rewrite !tables_report, !cohens_d_report.
    assert (Hm : mean_table df ka kb = mean_table df' ka kb).
    { unfold mean_table. rewrite (byte_values_perm df df' H). f_equal.
      apply map_ext. intros b.
      now rewrite !(group_mean_perm _ b df df' H). }
    assert (Hi : improvement_table df ka kb = improvement_table df' ka kb).
    { unfold improvement_table. rewrite (byte_values_perm df df' H). f_equal.
      apply map_ext. intros b.
      now rewrite !(group_mean_perm _ b df df' H). }
    assert (Hd : column_differences df ka kb = column_differences df' ka kb).
    { unfold column_differences. rewrite (byte_values_perm df df' H).
      apply map_ext. intros b.
      now rewrite !(group_mean_perm _ b df df' H). }
    rewrite Hm, Hi, Hd. repeat split.
    unfold report. cbn [app size_reports].
    rewrite !size_reports_reports, !map_map. unfold size_test. cbn [msg_size].
    rewrite !map_id.
    transitivity (byte_values df); [apply Permutation_sym, sorted_perm |].
    rewrite (byte_values_perm df df' H). apply sorted_perm.
  - rewrite (statisticaltest_other ttest_ind df E).
    rewrite Hk in E. rewrite (statisticaltest_other ttest_ind df' E).
    unfold status, output. cbn [fst snd]. rewrite Hk.
    repeat split. constructor.
Qed.
End RowOrder.

Lemma tables_row_order_witness :
  Permutation df_gap (rev df_gap)
  /\ tables (output (statisticaltest ttest_none df_gap))
     = tables (output (statisticaltest ttest_none (rev df_gap))).
Proof.
  split; [apply Permutation_rev |].
  destruct (tables_row_order ttest_none df_gap (rev df_gap) (Permutation_rev _))
    as (_ & Ht & _).
  exact Ht.
Defined.

(** *** The unit of time *)

Lemma sign_of_scale (c a : R) : (0 < c)%R -> sign_of (c * a) = sign_of a.
Proof.
  intros Hc. destruct (total_order_T a 0) as [[Ha | Ha] | Ha].
  - rewrite (sign_of_neg a Ha). apply sign_of_neg. nra.
  - rewrite (sign_of_zero a Ha). apply sign_of_zero. subst. lra.
  - rewrite (sign_of_pos a Ha). apply sign_of_pos. nra.
Qed.

Lemma fdiv_scale (c a b : R) :
  (0 < c)%R -> fdiv (Fin (c * a)) (Fin (c * b)) = fdiv (Fin a) (Fin b).
Proof.
  intros Hc. unfold fdiv. rewrite !(sign_of_scale c _ Hc).
  destruct (total_order_T b 0) as [[Hb | Hb] | Hb].
  - rewrite (sign_of_neg b Hb). f_equal. field. lra.
  - rewrite (sign_of_zero b Hb). reflexivity.
  - rewrite (sign_of_pos b Hb). f_equal. field. lra.
Qed.

Lemma improvement_pct_scale (c : R) (a b : fval) :
  (0 < c)%R -> (a = NaN \/ exists x, a = Fin x) -> (b = NaN \/ exists y, b = Fin y) ->
  improvement_pct (fmul (Fin c) a) (fmul (Fin c) b) = improvement_pct a b.
Proof.
  intros Hc [-> | [x ->]] Hb; [reflexivity |].
  destruct Hb as [-> | [y ->]]; [reflexivity |].
  unfold improvement_pct, fsub. cbn [fmul fopp fadd].
  replace (c * x + - (c * y))%R with (c * (x + - y))%R by lra.
  now rewrite (fdiv_scale c _ _ Hc).
Qed.

Lemma raw_times_scale (c : R) (kv b : Z) (df : dataframe) :
  raw_times kv b (scale_times c df) = map (Rmult c) (raw_times kv b df).
Proof.
  unfold raw_times, scale_times.
  induction df as [| r df IH]; [reflexivity |].
  cbn [map filter k bytes]. destruct ((k r =? kv) && (bytes r =? b)).
  - cbn [map time]. now rewrite IH.
  - exact IH.
Qed.

Lemma Rsum_scale (c : R) (xs : list R) :
  Rsum (map (Rmult c) xs) = (c * Rsum xs)%R.
Proof.
  induction xs as [| x xs IH]; cbn [map Rsum fold_right]; [lra |].
  unfold Rsum in IH. rewrite IH. lra.
Qed.

Lemma arith_mean_some (xs : list R) :
  xs <> [] -> arith_mean xs = Fin (Rsum xs / INR (length xs)).
Proof. destruct xs; [contradiction | reflexivity]. Qed.

Lemma sample_std_some (xs : list R) :
  (2 <= length xs)%nat ->
  sample_std xs
  = Fin (sqrt (Rsum (map (fun x => ((x - Rsum xs / INR (length xs))
                                    * (x - Rsum xs / INR (length xs)))%R) xs)
               / INR (length xs - 1))).
Proof.
  destruct xs as [| x [| y xs]]; simpl length; intros H; try lia. reflexivity.
Qed.

Lemma arith_mean_scale (c : R) (xs : list R) :
  arith_mean (map (Rmult c) xs) = fmul (Fin c) (arith_mean xs).
Proof.
  destruct xs as [| x xs]; [reflexivity |].
  rewrite !arith_mean_some by discriminate.
  rewrite Rsum_scale, length_map. cbn [fmul]. f_equal. unfold Rdiv. lra.
Qed.

Lemma sample_std_scale (c : R) (xs : list R) :
  (0 < c)%R -> sample_std (map (Rmult c) xs) = fmul (Fin c) (sample_std xs).
Proof.
  intros Hc. destruct (le_lt_dec 2 (length xs)) as [Hn | Hn].
  - rewrite !sample_std_some by now rewrite ?length_map.
    cbn [fmul]. f_equal.
    rewrite Rsum_scale, length_map, map_map.
    set (m := (Rsum xs / INR (length xs))%R).
    rewrite (map_ext _ (fun x => (c * c * ((x - m) * (x - m)))%R)).
    2:{ intros z. unfold m, Rdiv. ring. }
    rewrite <- (map_map (fun x => ((x - m) * (x - m))%R) (Rmult (c * c))), Rsum_scale.
    set (V := Rsum (map (fun x => ((x - m) * (x - m))%R) xs)).
    assert (HV : (0 <= V / INR (length xs - 1))%R).
    { apply Rmult_le_pos; [apply Rsum_sq_nonneg |].
      apply Rlt_le, Rinv_0_lt_compat, INR_pos. lia. }
    replace (c * c * V / INR (length xs - 1))%R
      with ((c * c) * (V / INR (length xs - 1)))%R by (unfold Rdiv; ring).
    rewrite sqrt_mult by nra.
    now rewrite sqrt_square by lra.
  - rewrite !sample_std_short by now rewrite ?length_map. reflexivity.
Qed.

Lemma has_samples_scale (c : R) (kv b : Z) (df : dataframe) :
  has_samples kv b (scale_times c df) = has_samples kv b df.
Proof.
  unfold has_samples, scale_times. induction df as [| r df IH]; [reflexivity |].
  cbn [map existsb k bytes]. now rewrite IH.
Qed.

Lemma k_values_scale (c : R) (df : dataframe) :
  k_values (scale_times c df) = k_values df.
Proof. unfold k_values, scale_times. now rewrite map_map. Qed.

Lemma byte_values_scale (c : R) (df : dataframe) :
  byte_values (scale_times c df) = byte_values df.
Proof. unfold byte_values, scale_times. now rewrite map_map. Qed.

Lemma group_mean_scale (c : R) (kv b : Z) (df : dataframe) :
  group_mean (scale_times c df) kv b = fmul (Fin c) (group_mean df kv b).
Proof. unfold group_mean. now rewrite raw_times_scale, arith_mean_scale. Qed.

Lemma group_mean_shape (df : dataframe) (kv b : Z) :
  group_mean df kv b = NaN \/ exists x, group_mean df kv b = Fin x.
Proof.
  unfold group_mean, arith_mean. destruct (raw_times kv b df); eauto.
Qed.

Lemma mean_difference_scale (c : R) (ka kb b : Z) (df : dataframe) :
  mean_difference (scale_times c df) ka kb b
  = (c * mean_difference df ka kb b)%R.
Proof.
  unfold mean_difference.
  rewrite !raw_times_scale, !Rsum_scale, !length_map. unfold Rdiv. ring.
Qed.

Section UnitFacts.
Variable ttest_ind : list fval -> list fval -> fval * fval.

(** X10.  The improvement percentage does not depend on the unit of time:
    with every time multiplied by the same positive factor, the
    improvement_% of each bytes value is unchanged, in the comparison table
    and in the per-size loop, while time_saved_s is multiplied by the
    factor. *)
Theorem improvement_is_unit_free (c : R) (df : dataframe) (ka kb b : Z) :
  (0 < c)%R -> k_values df = [ka; kb] -> In b (map bytes df) ->
  exists t t' r r',
    nth_error (tables (output (statisticaltest ttest_ind df))) 1 = Some t
    /\ nth_error (tables (output (statisticaltest ttest_ind (scale_times c df)))) 1
       = Some t'
    /\ cell t' b "improvement_%" = cell t b "improvement_%"
    /\ (forall s, cell t b "time_saved_s" = Some s ->
                  cell t' b "time_saved_s" = Some (fmul (Fin c) s))
    /\ report_for b (output (statisticaltest ttest_ind df)) = Some r
    /\ report_for b (output (statisticaltest ttest_ind (scale_times c df))) = Some r'
    /\ mean_improvement r' = mean_improvement r.
Proof.
  intros Hc Hk Hb.
  assert (Hk' : k_values (scale_times c df) = [ka; kb])
    by now rewrite k_values_scale.
  assert (Hb' : In b (map bytes (scale_times c df))).
  { apply byte_values_In. rewrite byte_values_scale. now apply byte_values_In. }
  exists (improvement_table df ka kb), (improvement_table (scale_times c df) ka kb).
  exists (size_test ttest_ind df b), (size_test ttest_ind (scale_times c df) b).
  rewrite (statisticaltest_two ttest_ind df ka kb Hk).
  rewrite (statisticaltest_two ttest_ind _ ka kb Hk').
  unfold output. cbn [fst]. rewrite !tables_report.
  destruct (improvement_table_cells df ka kb b Hb) as [Hp Hs].
  destruct (improvement_table_cells _ ka kb b Hb') as [Hp' Hs'].
  rewrite Hp, Hs, Hp', Hs', !group_mean_scale.
  split; [reflexivity |]. split; [reflexivity |].
  split.
  { f_equal. apply improvement_pct_scale; auto using group_mean_shape. }
  split.
  { intros s [= <-]. f_equal.
    destruct (group_mean_shape df ka b) as [-> | [x ->]]; [reflexivity |].
    destruct (group_mean_shape df kb b) as [-> | [y ->]]; [reflexivity |].
    unfold fsub. cbn [fmul fopp fadd]. f_equal. lra. }
  split; [now apply report_for_report |].
  split; [now apply report_for_report |].
  rewrite !size_test_improvement, !group_mean_scale.
  apply improvement_pct_scale; auto using group_mean_shape.
Qed.

(** X11.  Cohen's d does not depend on the unit of time either: with every
    time multiplied by the same positive factor the value printed is the
    same. *)
Theorem cohens_d_is_unit_free (c : R) (df : dataframe) (ka kb : Z) :
  (0 < c)%R -> k_values df = [ka; kb] ->
  printed_cohens_d (output (statisticaltest ttest_ind (scale_times c df)))
  = printed_cohens_d (output (statisticaltest ttest_ind df)).
Proof.
  intros Hc Hk.
  assert (Hk' : k_values (scale_times c df) = [ka; kb])
    by now rewrite k_values_scale.
  rewrite (cohens_d_closed ttest_ind df ka kb Hk).
  rewrite (cohens_d_closed ttest_ind _ ka kb Hk').
  assert (Hp : paired_sizes (scale_times c df) ka kb = paired_sizes df ka kb).
  { unfold paired_sizes. rewrite byte_values_scale. apply filter_ext.
    intros b. now rewrite !has_samples_scale. }
  rewrite Hp.
  rewrite (map_ext (mean_difference (scale_times c df) ka kb)
                   (fun b => Rmult c (mean_difference df ka kb b)))
    by (intros b; apply mean_difference_scale).
  rewrite <- (map_map (mean_difference df ka kb) (Rmult c)).
  set (xs := map (mean_difference df ka kb) (paired_sizes df ka kb)).
  rewrite arith_mean_scale, (sample_std_scale c xs Hc). f_equal.
  destruct (le_lt_dec 2 (length xs)) as [Hn | Hn].
  - rewrite (sample_std_some xs Hn).
    rewrite arith_mean_some by (intros E; rewrite E in Hn; simpl in Hn; lia).
    cbn [fmul]. now apply fdiv_scale.
  - rewrite (sample_std_short xs Hn). cbn [fmul]. now rewrite !fdiv_NaN_r.
Qed.
End UnitFacts.

Lemma improvement_is_unit_free_witness :
  (0 < 1000)%R /\ k_values df_pair = [1; 8] /\ In 64 (map bytes df_pair)
  /\ exists t t',
       nth_error (tables (output (statisticaltest ttest_none df_pair))) 1 = Some t
       /\ nth_error
            (tables (output (statisticaltest ttest_none (scale_times 1000 df_pair)))) 1
          = Some t'
       /\ cell t' 64 "improvement_%" = cell t 64 "improvement_%".
Proof.
  assert (Hc : (0 < 1000)%R) by lra.
  assert (Hb : In 64 (map bytes df_pair)) by (simpl; auto).
  split; [exact Hc |]. split; [reflexivity |]. split; [exact Hb |].
  destruct (improvement_is_unit_free ttest_none 1000 df_pair 1 8 64 Hc eq_refl Hb)
    as (t & t' & _ & _ & Ht & Ht' & Hi & _).
  exists t, t'. auto.
Defined.

Lemma cohens_d_is_unit_free_witness :
  (0 < 1000)%R /\ k_values df_k2_k4 = [2; 4]
  /\ printed_cohens_d (output (statisticaltest ttest_none (scale_times 1000 df_k2_k4)))
     = printed_cohens_d (output (statisticaltest ttest_none df_k2_k4)).
Proof.
  assert (Hc : (0 < 1000)%R) by lra.
  split; [exact Hc |]. split; [reflexivity |].
  apply (cohens_d_is_unit_free ttest_none 1000 df_k2_k4 2 4 Hc eq_refl).
Defined.

(** *** The error bars *)


Lemma half_width_some (xs : list R) :
  (2 <= length xs)%nat ->
  exists s, sample_std xs = Fin s /\ (0 <= s)%R
            /\ half_width xs = Fin (1.96 * (s / sqrt (INR (length xs)))).
Proof.
  intros Hn. rewrite (sample_std_some xs Hn). eexists.
  split; [reflexivity |]. split; [apply sqrt_pos |].
  unfold half_width. rewrite (sample_std_some xs Hn).
  destruct (sqrt_count_pos (length xs)) as [-> Hp]; [lia |].
  now rewrite (fdiv_Fin_pos _ _ Hp).
Qed.

(** X12.  An error bar is NaN exactly for a group with a single sample; a
    group with two or more samples gets a half-width that is a number
    and not negative. *)
Theorem error_bar_nan_iff_single_sample (df : dataframe) (b kv : Z) :
  has_samples kv b df = true ->
  (lookup key_eqb (b, kv) (cis (aggregate df)) = Some NaN
   <-> length (raw_times kv b df) = 1%nat)
  /\ ((2 <= length (raw_times kv b df))%nat ->
      exists h, lookup key_eqb (b, kv) (cis (aggregate df)) = Some (Fin h)
                /\ (0 <= h)%R).
Proof.
  intros Hs. rewrite (cis_entry df kv b Hs).
  pose proof (has_samples_raw kv b df Hs) as Hpos.
  assert (Hbig : (2 <= length (raw_times kv b df))%nat ->
                 exists h, half_width (raw_times kv b df) = Fin h /\ (0 <= h)%R).
  { intros Hn. destruct (half_width_some _ Hn) as (s & _ & Hs0 & ->).
    eexists. split; [reflexivity |].
    destruct (sqrt_count_pos (length (raw_times kv b df)) Hpos) as [_ Hp].
    apply Rmult_le_pos; [lra |].
    apply Rmult_le_pos; [exact Hs0 |]. now apply Rlt_le, Rinv_0_lt_compat. }
  split.
  - split.
    + intros [= E].
      destruct (le_lt_dec 2 (length (raw_times kv b df))) as [Hn | Hn]; [| lia].
      destruct (Hbig Hn) as (h & Hh & _). rewrite Hh in E. discriminate.
    + intros E. destruct (raw_times kv b df) as [| x [| y xs]]; try discriminate.
      reflexivity.
  - intros Hn. destruct (Hbig Hn) as (h & -> & Hh). eauto.
Qed.


Lemma error_bar_nan_iff_single_sample_witness :
  has_samples 1 128 df_gap = true
  /\ lookup key_eqb (128, 1) (cis (aggregate df_gap)) = Some NaN.
Proof.
  split; [reflexivity |].
  destruct (error_bar_nan_iff_single_sample df_gap 128 1 eq_refl) as [[_ H] _].
  apply H. reflexivity.
Defined.


(** *** The layout of the chart *)

Lemma parse_str (b : Z) : parse_int (str b) = Some b.
Proof.
  unfold parse_int, str. rewrite NilZero.isi.
  - cbn [option_map]. now rewrite DecimalZ.of_to.
  - destruct b as [| p | p]; cbn [Z.to_int]; try discriminate.
    intros [= E]. now apply (Unsigned.to_uint_nonnil p).
  - destruct b as [| p | p]; cbn [Z.to_int]; try discriminate.
    intros [= E]. now apply (Unsigned.to_uint_nonnil p).
Qed.

Lemma str_injective (a b : Z) : str a = str b -> a = b.
Proof.
  intros H. assert (E : parse_int (str a) = parse_int (str b)) by now rewrite H.
  rewrite !parse_str in E. now injection E.
Qed.

Lemma NoDup_map_str (l : list Z) : NoDup l -> NoDup (map str l).
Proof.
  induction 1 as [| x l Hx _ IH]; cbn [map]; constructor; [| exact IH].
  intros Hin. apply in_map_iff in Hin. destruct Hin as [y [Hy Hin]].
  apply str_injective in Hy. now subst.
Qed.

Lemma nth_map_default {A B : Type} (f : A -> B) (l : list A) (j : nat)
    (d : A) (d' : B) :
  (j < length l)%nat -> nth j (map f l) d' = f (nth j l d).
Proof.
  intros H. rewrite (nth_indep _ d' (f d)) by now rewrite length_map.
  apply map_nth.
Qed.

Lemma arange_length (n : nat) : length (arange n) = n.
Proof. unfold arange. now rewrite length_map, length_seq. Qed.

Lemma arange_nth (n j : nat) : (j < n)%nat -> nth j (arange n) 0%R = INR j.
Proof.
  intros H. unfold arange.
  rewrite (nth_map_default INR _ j 0%nat) by now rewrite length_seq.
  now rewrite seq_nth.
Qed.

Lemma centre_nth (i n j : nat) :
  (j < n)%nat ->
  nth j (map (fun xj => (xj + (INR i - 0.5) * width)%R) (arange n)) 0%R
  = (INR j + (INR i - 0.5) * width)%R.
Proof.
  intros H.
  rewrite (nth_map_default _ _ j 0%R) by now rewrite arange_length.
  now rewrite arange_nth.
Qed.

Lemma INR_apart (a b : nat) : a <> b -> (1 <= Rabs (INR a - INR b))%R.
Proof.
  intros H. destruct (Nat.lt_total a b) as [Hlt | [E | Hlt]]; [| contradiction |].
  - apply le_INR in Hlt. rewrite S_INR in Hlt.
    rewrite Rabs_left by lra. lra.
  - apply le_INR in Hlt. rewrite S_INR in Hlt.
    rewrite Rabs_right by lra. lra.
Qed.

Lemma chart_drawn (df : dataframe) (ax : axes) :
  chart df = Ok ax ->
  barchart df
  = Ok [ mkBar 0 1 (map (fun b => group_mean df 1 b) (byte_values df))
               (map (fun b => half_width (raw_times 1 b df)) (byte_values df));
         mkBar 1 8 (map (fun b => group_mean df 8 b) (byte_values df))
               (map (fun b => half_width (raw_times 8 b df)) (byte_values df)) ]
  /\ ax = mkAxes
            [ (map (fun xj => (xj + (INR 0 - 0.5) * width)%R)
                   (arange (length (byte_values df))),
               mkBar 0 1 (map (fun b => group_mean df 1 b) (byte_values df))
                     (map (fun b => half_width (raw_times 1 b df)) (byte_values df)));
              (map (fun xj => (xj + (INR 1 - 0.5) * width)%R)
                   (arange (length (byte_values df))),
               mkBar 1 8 (map (fun b => group_mean df 8 b) (byte_values df))
                     (map (fun b => half_width (raw_times 8 b df)) (byte_values df))) ]
            (arange (length (byte_values df)))
            (map str (byte_values df)).
Proof.
  unfold chart. fold (byte_values df).
  destruct (barchart_cases df) as [[_ Hb] | (b & kv & _ & _ & _ & Hb)];
    rewrite Hb; cbn [rbind]; [| discriminate].
  intros [= <-]. split; reflexivity.
Qed.

Lemma chart_when_complete (df : dataframe) :
  (forall b, In b (map bytes df) ->
     has_samples 1 b df = true /\ has_samples 8 b df = true) ->
  exists ax, chart df = Ok ax.
Proof.
  intros Hall. unfold chart.
  destruct (barchart_cases df) as [[_ Hb] | (b & kv & Hin & Hkv & Hs & _)].
  - rewrite Hb. cbn [rbind]. eauto.
  - destruct (Hall b Hin) as [H1 H8]. destruct Hkv as [-> | ->]; congruence.
Qed.

(** X14.  When the chart is drawn, [ax.bar] is called twice, for k = 1 and
    for k = 8, each time with one height and one error bar per distinct
    bytes value.  In exact arithmetic, at tick [j] the k = 1 bar is centred
    half a bar width to the left and the k = 8 bar half a bar width to the
    right, and the centres of any two bars of the chart are at least one
    bar width apart: no two bars overlap.  The centres computed in float64
    carry a rounding error of an ulp, which is not part of the
    statement. *)
Theorem bars_do_not_overlap (df : dataframe) (ax : axes) :
  chart df = Ok ax ->
  exists c1 b1 c8 b8,
    drawn ax = [(c1, b1); (c8, b8)]
    /\ bar_k b1 = 1 /\ bar_k b8 = 8
    /\ length c1 = length (byte_values df)
    /\ length c8 = length (byte_values df)
    /\ length (vals b1) = length (byte_values df)
    /\ length (errs b1) = length (byte_values df)
    /\ length (vals b8) = length (byte_values df)
    /\ length (errs b8) = length (byte_values df)
    /\ (forall j, (j < length (byte_values df))%nat ->
          nth j c1 0%R = (INR j - width / 2)%R
          /\ nth j c8 0%R = (INR j + width / 2)%R)
    /\ (forall p q, (p < 2 * length (byte_values df))%nat ->
                    (q < 2 * length (byte_values df))%nat -> p <> q ->
          (width <= Rabs (nth p (c1 ++ c8) 0%R - nth q (c1 ++ c8) 0%R))%R).
Proof.
  intros H. destruct (chart_drawn df ax H) as [_ ->]. cbn [drawn].
  set (n := length (byte_values df)).
  do 4 eexists. split; [reflexivity |]. cbn [bar_k vals errs].
  assert (Hl : forall i, length (map (fun xj => (xj + (INR i - 0.5) * width)%R)
                                     (arange n)) = n).
  { intros i. unfold arange. now rewrite !length_map, length_seq. }
  rewrite !Hl, !length_map. fold n.
  repeat (split; [reflexivity |]).
  assert (Hc : forall j, (j < n)%nat ->
             nth j (map (fun xj => (xj + (INR 0 - 0.5) * width)%R) (arange n)) 0%R
             = (INR j - width / 2)%R
             /\ nth j (map (fun xj => (xj + (INR 1 - 0.5) * width)%R) (arange n)) 0%R
                = (INR j + width / 2)%R).
  { intros j Hj. rewrite !centre_nth by exact Hj.
    unfold width. simpl INR. split; lra. }
  split; [exact Hc |].
  intros p q Hp Hq Hpq.
  assert (Hw : width = 0.35%R) by reflexivity.
  destruct (le_lt_dec n p) as [Hnp | Hnp], (le_lt_dec n q) as [Hnq | Hnq].
  - rewrite !app_nth2 by (rewrite Hl; lia). rewrite !Hl.
    destruct (Hc (p - n)%nat) as [_ ->]; [lia |].
    destruct (Hc (q - n)%nat) as [_ ->]; [lia |].
    assert (Hne : (p - n <> q - n)%nat) by lia.
    pose proof (INR_apart _ _ Hne) as Ha.
    replace (INR (p - n) + width / 2 - (INR (q - n) + width / 2))%R
      with (INR (p - n) - INR (q - n))%R by lra.
    lra.
  - rewrite app_nth2 by (rewrite Hl; lia). rewrite app_nth1 by (rewrite Hl; lia).
    rewrite Hl.
    destruct (Hc (p - n)%nat) as [_ ->]; [lia |].
    destruct (Hc q) as [-> _]; [lia |].
    destruct (Nat.eq_dec (p - n) q) as [E | Hne].
    + rewrite E. rewrite Rabs_right by lra. lra.
    + pose proof (INR_apart _ _ Hne) as Ha.
      unfold Rabs in *. destruct (Rcase_abs (INR (p - n) - INR q));
        destruct (Rcase_abs _); lra.
  - rewrite app_nth1 by (rewrite Hl; lia). rewrite app_nth2 by (rewrite Hl; lia).
    rewrite Hl.
    destruct (Hc p) as [-> _]; [lia |].
    destruct (Hc (q - n)%nat) as [_ ->]; [lia |].
    destruct (Nat.eq_dec p (q - n)) as [E | Hne].
    + rewrite <- E. rewrite Rabs_left by lra. lra.
    + pose proof (INR_apart _ _ Hne) as Ha.
      unfold Rabs in *. destruct (Rcase_abs (INR p - INR (q - n)));
        destruct (Rcase_abs _); lra.
  - rewrite !app_nth1 by (rewrite Hl; lia).
    destruct (Hc p) as [-> _]; [lia |].
    destruct (Hc q) as [-> _]; [lia |].
    pose proof (INR_apart _ _ Hpq) as Ha.
    replace (INR p - width / 2 - (INR q - width / 2))%R
      with (INR p - INR q)%R by lra.
    lra.
Qed.

(** X15.  When the chart is drawn, the ticks are 0, 1, 2, ... and tick [j]
    is labelled with the decimal digits of the [j]-th smallest distinct
    bytes value; the labels are all different and each reads back as a
    bytes value of the input. *)
Theorem tick_labels (df : dataframe) (ax : axes) :
  chart df = Ok ax ->
  xticks ax = arange (length (byte_values df))
  /\ xticklabels ax = map str (byte_values df)
  /\ StronglySorted Z.lt (byte_values df)
  /\ (forall j b, nth_error (byte_values df) j = Some b ->
        nth_error (xticks ax) j = Some (INR j)
        /\ nth_error (xticklabels ax) j = Some (str b))
  /\ NoDup (xticklabels ax)
  /\ (forall s, In s (xticklabels ax) ->
        exists b, In b (map bytes df) /\ s = str b /\ parse_int s = Some b).
Proof.
  intros H. destruct (chart_drawn df ax H) as [_ ->]. cbn [xticks xticklabels].
  split; [reflexivity |]. split; [reflexivity |].
  split; [apply byte_values_increasing |].
  split.
  { intros j b Hj. split.
    - assert (Hlt : (j < length (byte_values df))%nat).
      { apply nth_error_Some. rewrite Hj. discriminate. }
      rewrite (nth_error_nth' _ 0%R) by now rewrite arange_length.
      now rewrite arange_nth.
    - now rewrite nth_error_map, Hj. }
  split.
  { apply NoDup_map_str, (distinct_NoDup _ Z.eqb_eq). }
  intros s Hs. apply in_map_iff in Hs. destruct Hs as [b [<- Hb]].
  exists b. split; [now apply byte_values_In |].
  split; [reflexivity | apply parse_str].
Qed.

Lemma bars_do_not_overlap_witness :
  exists ax c1 b1 c8 b8,
    chart df_pair = Ok ax
    /\ drawn ax = [(c1, b1); (c8, b8)]
    /\ nth 0 c1 0%R = (INR 0 - width / 2)%R
    /\ nth 0 c8 0%R = (INR 0 + width / 2)%R.
Proof.
  destruct (chart_when_complete df_pair) as [ax H].
  { intros b [<- | [<- | []]]; split; reflexivity. }
  destruct (bars_do_not_overlap df_pair ax H)
    as (c1 & b1 & c8 & b8 & Hd & _ & _ & _ & _ & _ & _ & _ & _ & Hc & _).
  exists ax, c1, b1, c8, b8. destruct (Hc 0%nat) as [H1 H8]; [simpl; lia |].
  repeat split; assumption.
Defined.

Lemma tick_labels_witness :
  exists ax, chart df_pair = Ok ax /\ xticklabels ax = ["64"%string].
Proof.
  destruct (chart_when_complete df_pair) as [ax H].
  { intros b [<- | [<- | []]]; split; reflexivity. }
  exists ax. split; [exact H |].
  destruct (tick_labels df_pair ax H) as (_ & Hl & _). exact Hl.
Defined.

(** *** Counting rows *)

Lemma list_sum_cons (x : nat) (l : list nat) :
  list_sum (x :: l) = (x + list_sum l)%nat.
Proof. reflexivity. Qed.

Lemma no_key_matches (g : key) (keys : list key) :
  ~ In g keys ->
  list_sum (map (fun h => if key_eqb g h then 1%nat else 0%nat) keys) = 0%nat.
Proof.
  induction keys as [| h keys IH]; intros Hg; [reflexivity |].
  cbn [map]. rewrite list_sum_cons.
  destruct (key_eqb g h) eqn:E.
  - apply key_eqb_eq in E. subst h. exfalso. apply Hg. now left.
  - rewrite IH; [reflexivity |]. intros H. apply Hg. now right.
Qed.

Lemma one_key_matches (g : key) (keys : list key) :
  NoDup keys -> In g keys ->
  list_sum (map (fun h => if key_eqb g h then 1%nat else 0%nat) keys) = 1%nat.
Proof.
  induction 1 as [| h keys Hh Hn IH]; intros Hin; [contradiction |].
  cbn [map]. rewrite list_sum_cons.
  destruct (key_eqb g h) eqn:E.
  - apply key_eqb_eq in E. subst h. now rewrite (no_key_matches g keys Hh).
  - destruct Hin as [-> | Hin].
    + rewrite (proj2 (key_eqb_eq g g) eq_refl) in E. discriminate.
    + now rewrite IH.
Qed.

Lemma group_sizes_add_up (by_ : record -> key) (keys : list key) (df : dataframe) :
  NoDup keys -> (forall r, In r df -> In (by_ r) keys) ->
  list_sum (map (fun g => length (filter (fun r => key_eqb (by_ r) g) df)) keys)
  = length df.
Proof.
  intros Hn. induction df as [| r df IH]; intros Hin.
  - cbn [filter length]. clear Hn Hin.
    induction keys as [| g keys IHk]; [reflexivity |].
    cbn [map]. now rewrite list_sum_cons, IHk.
  - assert (Hsplit : forall l : list key,
             list_sum (map (fun g => length (filter (fun r0 => key_eqb (by_ r0) g)
                                                    (r :: df))) l)
             = (list_sum (map (fun h => if key_eqb (by_ r) h then 1%nat else 0%nat) l)
                + list_sum (map (fun g => length (filter (fun r0 => key_eqb (by_ r0) g)
                                                         df)) l))%nat).
    { induction l as [| g l IHl]; [reflexivity |].
      cbn [map]. rewrite !list_sum_cons, IHl. cbn [filter].
      destruct (key_eqb (by_ r) g); cbn [length]; lia. }
    rewrite Hsplit, (one_key_matches (by_ r) keys Hn) by (apply Hin; now left).
    rewrite IH by (intros r' Hr'; apply Hin; now right).
    reflexivity.
Qed.

Lemma count_Fin_map (f : record -> bool) (df : dataframe) :
  count (map (fun r => Fin (time r)) (filter f df)) = length (filter f df).
Proof.
  rewrite <- (map_map time Fin). now rewrite count_Fin, length_map.
Qed.

(** X16.  Grouping loses no row and counts none twice: the counts of the
    (bytes, k) groups add up to the number of rows of the table. *)
Theorem group_counts_add_up (df : dataframe) :
  list_sum (values (ns (aggregate df))) = length df.
Proof.
  unfold aggregate. cbn [ns]. unfold groupby, values. rewrite map_map.
  cbn [snd].
  rewrite (map_ext _ (fun g => length (filter (fun r => key_eqb (bytes r, k r) g) df))).
  2:{ intros g. unfold group_times. now rewrite count_Fin_map. }
  apply group_sizes_add_up.
  - apply (distinct_NoDup _ key_eqb_eq).
  - intros r Hr. apply (distinct_In _ key_eqb_eq).
    apply in_map_iff. exists r. auto.
Qed.

Section CountFacts.
Variable ttest_ind : list fval -> list fval -> fval * fval.

(** X17.  When the distinct k values of the input are exactly 1 and 8, the
    two counts printed for a message size add up to the number of rows of
    that size: the loop counts every row once. *)
Theorem loop_counts_every_row (df : dataframe) (b : Z) :
  k_values df = [1; 8] -> In b (map bytes df) ->
  exists r,
    report_for b (output (statisticaltest ttest_ind df)) = Some r
    /\ (k1_n r + k8_n r)%nat = length (rows_of_size b df).
Proof.
  intros Hk Hb. exists (size_test ttest_ind df b).
  rewrite (statisticaltest_two ttest_ind df 1 8 Hk). unfold output. cbn [fst].
  split; [now apply report_for_report |].
  unfold size_test. cbn [k1_n k8_n]. unfold select_times, rows_of_size.
  rewrite !length_map.
  destruct (k_values_two df 1 8 Hk) as (_ & _ & _ & Hr).
  clear Hk Hb. induction df as [| r df IH]; [reflexivity |].
  cbn [filter].
  assert (Hr' : forall r0, In r0 df -> k r0 = 1 \/ k r0 = 8)
    by (intros r0 H0; apply Hr; now right).
  specialize (IH Hr').
  destruct (Hr r (or_introl eq_refl)) as [E | E]; rewrite E;
    destruct (bytes r =? b); cbn [andb Z.eqb Pos.eqb length]; lia.
Qed.
End CountFacts.

Lemma loop_counts_every_row_witness :
  k_values df_gap = [1; 8] /\ In 64 (map bytes df_gap)
  /\ exists r,
       report_for 64 (output (statisticaltest ttest_none df_gap)) = Some r
       /\ (k1_n r + k8_n r)%nat = 3%nat.
Proof.
  split; [reflexivity |]. split; [simpl; auto |].
  apply (loop_counts_every_row ttest_none df_gap 64); [reflexivity | simpl; auto].
Defined.

(** ** Part 4. The per-size test and the two mean routines *)

(** *** The t-test on the raw samples *)





Lemma pooled_t_empty_l (ys : list R) : pooled_t [] ys = NaN.
Proof. reflexivity. Qed.




Section TTestFacts.
Variable student_sf : Z -> fval -> fval.

End TTestFacts.


(** *** The two mean routines *)

Section MeanRoutineFacts.
Variable grouped_mean : list fval -> fval.
Variable series_mean : list fval -> fval.
Variable ttest_ind : list fval -> list fval -> fval * fval.

Lemma pivot_entry_lookup (df : dataframe) (kv b : Z) :
  match lookup key_eqb (kv, b)
          (groupby (fun r => (k r, bytes r)) grouped_mean df) with
  | Some v => v
  | None => NaN
  end = pivot_entry grouped_mean df kv b.
Proof.
  unfold groupby, pivot_entry.
  destruct (has_samples kv b df) eqn:E.
  - rewrite (lookup_map_In _ key_eqb_eq).
    + now rewrite group_times_k_bytes.
    + apply (distinct_In _ key_eqb_eq). now apply has_samples_In.
  - rewrite (lookup_map_notin _ key_eqb_eq); [reflexivity |].
    rewrite (distinct_In _ key_eqb_eq), <- has_samples_In, E. discriminate.
Qed.

Lemma pivot_groupby (df : dataframe) :
  pivot (groupby (fun r => (k r, bytes r)) grouped_mean df)
  = Ok (mkFrame (k_values df)
          (map (fun b => (b, map (fun kv => pivot_entry grouped_mean df kv b)
                                 (k_values df)))
               (byte_values df))).
Proof.
  unfold pivot.
  match goal with |- context [has_dup key_eqb ?l] =>
    assert (Hk : l = sorted key_leb
                       (unique key_eqb (map (fun r => (k r, bytes r)) df)))
  end.
  { unfold groupby. rewrite map_map. simpl. apply map_id. }
  rewrite Hk, (has_dup_NoDup _ key_eqb_eq) by apply (distinct_NoDup _ key_eqb_eq).
  match goal with |- Ok (mkFrame ?cols (map _ ?idx)) = _ =>
    assert (Hi : idx = byte_values df);
    [| assert (Hc : cols = k_values df) ]
  end.
  - apply distinct_Z_ext. intros x.
    unfold groupby. rewrite map_map. simpl. apply keys_snd_In.
  - apply distinct_Z_ext. intros x.
    unfold groupby. rewrite map_map. simpl. apply keys_fst_In.
  - rewrite Hi, Hc. do 2 f_equal.
    apply map_ext. intros b. f_equal.
    apply map_ext. intros kv. apply pivot_entry_lookup.
Qed.

Lemma statisticaltest_with_two (df : dataframe) (ka kb : Z) :
  k_values df = [ka; kb] ->
  statisticaltest_with grouped_mean series_mean ttest_ind df
  = (report_with grouped_mean series_mean ttest_ind df ka kb, Ok tt).
Proof.
  intros Hk. unfold statisticaltest_with.
  rewrite pivot_groupby, Hk.
  cbn [lift bind set_columns columns rows length Nat.eqb print app map].
  rewrite !(getitem_map "k1" _ 0) by reflexivity.
  rewrite !(getitem_map "k8" _ 1) by reflexivity.
  cbn [lift bind app nth].
  rewrite !zip_with_map, smap_map.
  rewrite setitem_map_new by reflexivity.
  cbn [app].
  rewrite !(getitem_map "k1" _ 0) by reflexivity.
  rewrite !(getitem_map "k8" _ 1) by reflexivity.
  cbn [lift bind app nth].
  rewrite !zip_with_map.
  rewrite setitem_map_new by reflexivity.
  cbn [app].
  rewrite (select_map _ _ [2; 3]%nat) by reflexivity.
  rewrite !(getitem_map "k1" _ 0) by reflexivity.
  rewrite !(getitem_map "k8" _ 1) by reflexivity.
  cbn [lift bind app nth map].
  rewrite !zip_with_map, values_map, for_each_print.
  reflexivity.
Qed.
End MeanRoutineFacts.

(** With [nanmean] for both routines this is the script of Part 1. *)
Lemma statisticaltest_with_nanmean
    (ttest_ind : list fval -> list fval -> fval * fval) (df : dataframe) :
  statisticaltest_with nanmean nanmean ttest_ind df = statisticaltest ttest_ind df.
Proof. reflexivity. Qed.

Lemma pivot_entry_nanmean (df : dataframe) (kv b : Z) :
  pivot_entry nanmean df kv b = group_mean df kv b.
Proof.
  unfold pivot_entry. destruct (has_samples kv b df) eqn:E.
  - apply nanmean_select.
  - now rewrite (no_samples_mean df kv b E).
Qed.

Section ImprovementTwice.
Variable grouped_mean : list fval -> fval.
Variable series_mean : list fval -> fval.
Variable ttest_ind : list fval -> list fval -> fval * fval.

(** C5, amended.  When the distinct k values of the input are exactly 1
    and 8, for every bytes value of the input: the improvement_% of the
    comparison table is (k1 - k8) / k1 * 100 of the two pivoted grouped
    means, the mean_improvement of the per-size loop is the same formula
    of the two Series means of the raw k = 1 and k = 8 samples, and the
    two are equal whenever the grouped mean and the Series mean of these
    samples are the same value.  With both routines the exact mean, that
    is in exact arithmetic, they are always equal, and equal to the
    formula on the arithmetic means of the raw samples. *)
Theorem improvement_agrees_when_means_agree (df : dataframe) (b : Z) :
  k_values df = [1; 8] -> In b (map bytes df) ->
  (exists t x r,
     nth_error
       (tables (output (statisticaltest_with grouped_mean series_mean ttest_ind df))) 1
     = Some t
     /\ cell t b "improvement_%" = Some x
     /\ report_for b
          (output (statisticaltest_with grouped_mean series_mean ttest_ind df))
        = Some r
     /\ x = improvement_pct (pivot_entry grouped_mean df 1 b)
                            (pivot_entry grouped_mean df 8 b)
     /\ mean_improvement r
        = improvement_pct (series_mean (select_times 1 b df))
                          (series_mean (select_times 8 b df))
     /\ (pivot_entry grouped_mean df 1 b = series_mean (select_times 1 b df) ->
         pivot_entry grouped_mean df 8 b = series_mean (select_times 8 b df) ->
         mean_improvement r = x))
  /\ (exists t x r,
        nth_error (tables (output (statisticaltest ttest_ind df))) 1 = Some t
        /\ cell t b "improvement_%" = Some x
        /\ report_for b (output (statisticaltest ttest_ind df)) = Some r
        /\ mean_improvement r = x
        /\ x = improvement_pct (arith_mean (raw_times 1 b df))
                               (arith_mean (raw_times 8 b df))).
Proof.
  intros Hk Hb. split.
  - rewrite (statisticaltest_with_two grouped_mean series_mean ttest_ind df 1 8 Hk).
    unfold output. cbn [fst].
    eexists. eexists. exists (size_test_with series_mean ttest_ind df b).
    unfold report_with. cbn [app tables nth_error].
    split; [reflexivity |]. split.
    { apply byte_values_In in Hb.
      rewrite (cell_map _ _ _ _ _ 0%nat Hb) by reflexivity. reflexivity. }
    split.
    { unfold report_for. cbn [size_reports]. rewrite size_reports_reports.
      apply (unique_In _ Z.eqb_eq) in Hb.
      induction (unique Z.eqb (map bytes df)) as [| y l IH]; [contradiction |].
      cbn [map find]. unfold size_test_with at 1. cbn [msg_size].
      destruct (Z.eqb_spec y b) as [-> | Hy]; [reflexivity |].
      destruct Hb as [Hb | Hb]; [contradiction | auto]. }
    split; [reflexivity |].
    split; [reflexivity |].
    intros E1 E8. unfold size_test_with. cbn [mean_improvement].
    unfold improvement_pct. now rewrite E1, E8.
  - rewrite (statisticaltest_two ttest_ind df 1 8 Hk).
    exists (improvement_table df 1 8).
    exists (improvement_pct (group_mean df 1 b) (group_mean df 8 b)).
    exists (size_test ttest_ind df b).
    unfold output. cbn [fst]. rewrite tables_report.
    repeat split.
    + now apply improvement_table_cells.
    + now apply report_for_report.
    + apply size_test_improvement.
Qed.
End ImprovementTwice.

Lemma improvement_agrees_when_means_agree_witness :
  k_values df_pair = [1; 8] /\ In 64 (map bytes df_pair)
  /\ exists t x r,
       nth_error (tables (output (statisticaltest ttest_none df_pair))) 1 = Some t
       /\ cell t 64 "improvement_%" = Some x
       /\ report_for 64 (output (statisticaltest ttest_none df_pair)) = Some r
       /\ mean_improvement r = x.
Proof.
  assert (Hin : In 64 (map bytes df_pair)) by (simpl; auto).
  split; [reflexivity |]. split; [exact Hin |].
  destruct (improvement_agrees_when_means_agree nanmean nanmean ttest_none
              df_pair 64 eq_refl Hin)
    as [(t & x & r & Ht & Hx & Hr & _ & _ & Heq) _].
  exists t, x, r. repeat split; try assumption.
  apply Heq; unfold pivot_entry; reflexivity.
Defined.
